(** * Transaction admission checks of the optimist (nightfall_3)

    A shallow embedding of
    [nightfall-optimist/src/services/transaction-checker.mjs]:
    [checkTransactionHash], [checkTransactionType], [checkHistoricRoot],
    [verifyProof] and the orchestrator [checkTransaction].

    - Data.  JavaScript strings are [string]; an array access that may fall
      outside the array yields a [jsval] ([Undefined] when it does).  The
      fields of a transaction are the strings the ABI decoder or the
      [Transaction] class produces: [0x]-prefixed hexadecimal words and
      decimal integers.  [Number] and [generalise] are defined on these
      numeric strings and treat any other string as not a number.
    - Effects.  The collaborators that live outside the file (block store,
      chain state, remote verifier, hash recomputation) are the fields of an
      [Env].  An [async] body is a function of the environment that returns
      the collaborator calls it awaited, in order, and how it settled; "which
      collaborator was consulted" is a statement about these events.
    - Concurrency.  [Promise.all] rejects with the reason of the promise that
      rejects first.  Which of two checks that both await collaborators
      rejects first is not fixed by the program, so [checkTransaction]
      returns the list of settlements that can be observed. *)

From Stdlib Require Import List String Ascii NArith ZArith Lia Bool.
Import ListNotations.
Local Open Scope string_scope.
Local Open Scope list_scope.
Local Open Scope N_scope.
Set Warnings "-register-all".

(** ** JavaScript values and numeric strings *)

Module JS.

(** A scalar as the checker meets it: a string, or [undefined] when an
    array is read past its end. *)
Inductive jsval : Type :=
| Undefined
| Str (s : string).

(** [arr[i]] *)
Definition index (arr : list string) (i : nat) : jsval :=
  match nth_error arr i with
  | Some s => Str s
  | None => Undefined
  end.

(** [v === s] for a string [s] *)
Definition strict_eq (v : jsval) (s : string) : bool :=
  match v with
  | Str x => String.eqb x s
  | Undefined => false
  end.

Definition hex_digit (c : ascii) : option N :=
  let n := N_of_ascii c in
  if (48 <=? n) && (n <=? 57) then Some (n - 48)
  else if (97 <=? n) && (n <=? 102) then Some (n - 87)
  else if (65 <=? n) && (n <=? 70) then Some (n - 55)
  else None.

Definition dec_digit (c : ascii) : option N :=
  let n := N_of_ascii c in
  if (48 <=? n) && (n <=? 57) then Some (n - 48) else None.

(** Value of a digit string in base [base], most significant digit first,
    continuing from the value [acc] read so far. *)
Fixpoint digits_value (base : N) (digit : ascii -> option N)
         (s : string) (acc : N) : option N :=
  match s with
  | EmptyString => Some acc
  | String c rest =>
      match digit c with
      | Some d => digits_value base digit rest (base * acc + d)
      | None => None
      end
  end.

(** The numeric strings a transaction carries: [0x]-prefixed hexadecimal
    (32-byte words, addresses) and plain decimal (ABI-decoded unsigned
    integers).  Anything else is not a number here. *)
Definition numeric_literal (s : string) : option N :=
  match s with
  | String "0" (String "x" (String c rest)) =>
      digits_value 16 hex_digit (String c rest) 0
  | String "0" (String "X" (String c rest)) =>
      digits_value 16 hex_digit (String c rest) 0
  | String c rest => digits_value 10 dec_digit (String c rest) 0
  | EmptyString => None
  end.

(** [Number(v)]; [None] is [NaN].  The empty string converts to 0. *)
Definition Number (v : jsval) : option N :=
  match v with
  | Undefined => None
  | Str EmptyString => Some 0
  | Str s => numeric_literal s
  end.

(** [Number(v) === k] and [Number(v) !== k]; [NaN] equals nothing. *)
Definition num_eq (x : option N) (k : N) : bool :=
  match x with
  | Some n => n =? k
  | None => false
  end.

Definition num_neq (x : option N) (k : N) : bool := negb (num_eq x k).

End JS.
Export JS.

Coercion Str : string >-> jsval.

Notation "v === s" := (strict_eq v s) (at level 70, no associativity).
Notation "v !== s" := (negb (strict_eq v s)) (at level 70, no associativity).

(** ** The general-number package, as far as the checker uses it

    [generalise(x)] reads a numeric string into a number; [.hex(32, 31)]
    keeps the 31 low-order bytes of the value and writes them as a 32-byte
    hexadecimal string. *)

Module GeneralNumber.

(** [generalise(v)]: the value held by the general number; [None] when the
    constructor throws ([undefined], or a string that is not numeric). *)
Definition generalise (v : jsval) : option N :=
  match v with
  | Undefined => None
  | Str s => numeric_literal s
  end.

Definition digit_char (d : N) : ascii :=
  if d <? 10 then ascii_of_N (48 + d) else ascii_of_N (87 + d).

(** The [digits] low-order hexadecimal digits of [v], written in front of
    [acc]. *)
Fixpoint hex_digits (digits : nat) (v : N) (acc : string) : string :=
  match digits with
  | O => acc
  | S k => hex_digits k (v / 16) (String (digit_char (v mod 16)) acc)
  end.

(** [gn.hex(byteLength, butTruncateValueToByteLength)] *)
Definition hex (byteLength truncateTo : nat) (v : N) : string :=
  ("0x" ++ hex_digits (2 * byteLength) (v mod 256 ^ N.of_nat truncateTo) "")%string.

(** [generalise(v).hex(32, 31)] *)
Definition generalise_hex_32_31 (v : jsval) : option string :=
  match generalise v with
  | Some n => Some (hex 32 31 n)
  | None => None
  end.

(** Big-endian bytes of [v], [len] of them (the low-order [len] bytes). *)
Fixpoint be_bytes (len : nat) (v : N) (acc : list N) : list N :=
  match len with
  | O => acc
  | S k => be_bytes k (v / 256) (v mod 256 :: acc)
  end.

End GeneralNumber.
Export GeneralNumber.

(** ** Option and list helpers *)

Fixpoint traverse {A B : Type} (f : A -> option B) (l : list A)
  : option (list B) :=
  match l with
  | [] => Some []
  | x :: rest =>
      match f x, traverse f rest with
      | Some y, Some ys => Some (y :: ys)
      | _, _ => None
      end
  end.

(** ** PublicInputs *)

(** An element of the array literal handed to [new PublicInputs([...])]:
    a scalar or an array of further elements. *)
Inductive nested : Type :=
| Leaf (v : jsval)
| Arr (l : list nested).

(** [x.flat(Infinity)] for one element *)
Fixpoint flat (x : nested) : list jsval :=
  match x with
  | Leaf v => [v]
  | Arr l => flat_map flat l
  end.

(** Modelled from the spec: the [PublicInputs] class ([../classes] is not
    among the sources).  The public-input vector is the flat ordered
    sequence of the values given to the constructor, nested arrays
    flattened in place, each read as a number; [.publicInputs] is that
    vector.  Construction throws ([None]) when an element is not numeric. *)
Definition PublicInputs (elements : list nested) : option (list N) :=
  traverse generalise (flat_map flat elements).

(** ** Transactions, blocks, errors *)

Record Transaction : Type := {
  transactionHash : string;
  transactionType : string;
  tokenType : string;
  value : string;
  publicInputHash : string;
  tokenId : string;
  ercAddress : string;
  recipientAddress : string;
  commitments : list string;
  nullifiers : list string;
  compressedSecrets : list string;
  proof : list string;
  historicRootBlockNumberL2 : list string
}.

Record Block : Type := { root : string }.

(** Modelled from the spec: the [ZERO] sentinel of the configuration
    ([config] is not among the sources): the 32-byte zero word. *)
Definition ZERO : string :=
  "0x0000000000000000000000000000000000000000000000000000000000000000".

(** What a check throws: a [TransactionError(message, code)], or any other
    exception (an unreachable collaborator, a value that cannot be read as
    a number). *)
Inductive error : Type :=
| TransactionError (message : string) (code : N)
| Exception (what : string).

Inductive result (A : Type) : Type :=
| Ok (a : A)
| Err (e : error).
Arguments Ok {A} a.
Arguments Err {A} e.

(** The request posted to the verifier ([provingScheme], [backend] and
    [curve] are configuration constants and are left out; [inputs] travels
    as 32-byte hexadecimal words). *)
Record request : Type := {
  vk : list string;
  req_proof : list string;
  inputs : list N
}.

(** ** Collaborators and effects *)

(** The collaborators outside the checker.  [blocks] is the block store
    behind [getBlockByBlockNumberL2] ([None] is [null]); [verificationKey]
    is [waitForContract] followed by [getVerificationKey(type).call()], and
    [verifier] is the [verifies] field of the answer to the POST; for both,
    [None] means that the call threw. *)
Record Env : Type := {
  calcHash : Transaction -> string;
  blocks : jsval -> option Block;
  verificationKey : string -> option (list string);
  verifier : request -> option bool
}.

(** One awaited call to a collaborator. *)
Inductive event : Type :=
| GetBlock (blockNumberL2 : jsval)
| GetVerificationKey (type : string)
| Verify (req : request).

(** An [async] body: it reads the environment, awaits collaborators (the
    events, in order) and returns or throws. *)
Definition M (A : Type) : Type := Env -> list event * result A.

Definition ret {A : Type} (a : A) : M A := fun _ => ([], Ok a).

Definition throw {A : Type} (e : error) : M A := fun _ => ([], Err e).

Definition bind {A B : Type} (m : M A) (k : A -> M B) : M B :=
  fun env =>
    match m env with
    | (evs, Ok a) => let (evs', r) := k a env in (evs ++ evs', r)
    | (evs, Err e) => (evs, Err e)
    end.

Notation "x <- m ;; k" := (bind m (fun x => k))
  (at level 61, m at next level, right associativity).
Notation "m ;;; k" := (bind m (fun _ => k))
  (at level 61, right associativity).

Definition getBlockByBlockNumberL2 (blockNumberL2 : jsval) : M (option Block) :=
  fun env => ([GetBlock blockNumberL2], Ok (blocks env blockNumberL2)).

Definition getVerificationKey (type : string) : M (list string) :=
  fun env =>
    ([GetVerificationKey type],
     match verificationKey env type with
     | Some vkArray => Ok vkArray
     | None => Err (Exception "verification key unavailable")
     end).

Definition post_verify (req : request) : M bool :=
  fun env =>
    ([Verify req],
     match verifier env req with
     | Some verifies => Ok verifies
     | None => Err (Exception "verifier unavailable")
     end).

(** [await Promise.all(l.map(f))] for calls that do not throw: every call
    is made, in order. *)
Fixpoint awaitAll {A B : Type} (f : A -> M B) (l : list A) : M (list B) :=
  match l with
  | [] => ret []
  | x :: rest => y <- f x ;; ys <- awaitAll f rest ;; ret (y :: ys)
  end.

(** Modelled from the spec: [Transaction.checkHash] ([../classes] is not
    among the sources): the hash is recomputed from the stored fields and
    compared with the stored [transactionHash]. *)
Definition Transaction_checkHash (env : Env) (transaction : Transaction) : bool :=
  String.eqb (calcHash env transaction) (transactionHash transaction).

(** ** The checks *)

Definition length_neq {A : Type} (l : list A) (n : nat) : bool :=
  negb (Nat.eqb (List.length l) n).

Definition checkTransactionHash (transaction : Transaction) : M unit :=
  fun env =>
    if negb (Transaction_checkHash env transaction)
    then throw (TransactionError
                  "The transaction hash did not match the transaction data" 0) env
    else ret tt env.

Definition checkTransactionType (transaction : Transaction) : M unit :=
  match Number (transactionType transaction) with
  | Some 0 => (* deposit *)
      if (publicInputHash transaction === ZERO)
         || (num_neq (Number (tokenType transaction)) 0
             && (tokenId transaction === ZERO)
             && num_eq (Number (value transaction)) 0)
         || (ercAddress transaction === ZERO)
         || (recipientAddress transaction !== ZERO)
         || (index (commitments transaction) 0 === ZERO)
         || (index (commitments transaction) 1 !== ZERO)
         || length_neq (commitments transaction) 2
         || existsb (fun n : string => n !== ZERO) (nullifiers transaction)
         || existsb (fun cs : string => cs !== ZERO) (compressedSecrets transaction)
         || length_neq (compressedSecrets transaction) 8
         || forallb (fun p : string => p === ZERO) (proof transaction)
         || num_neq (Number (index (historicRootBlockNumberL2 transaction) 0)) 0
         || num_neq (Number (index (historicRootBlockNumberL2 transaction) 1)) 0
      then throw (TransactionError
        "The data provided was inconsistent with a transaction type of DEPOSIT" 1)
      else ret tt
  | Some 1 => (* single token transaction *)
      if (publicInputHash transaction === ZERO)
         || (tokenId transaction !== ZERO)
         || num_neq (Number (value transaction)) 0
         || (ercAddress transaction === ZERO)
         || (recipientAddress transaction !== ZERO)
         || (index (commitments transaction) 0 === ZERO)
         || (index (commitments transaction) 1 !== ZERO)
         || length_neq (commitments transaction) 2
         || (index (nullifiers transaction) 0 === ZERO)
         || (index (nullifiers transaction) 1 !== ZERO)
         || length_neq (nullifiers transaction) 2
         || forallb (fun cs : string => cs === ZERO) (compressedSecrets transaction)
         || length_neq (compressedSecrets transaction) 8
         || forallb (fun p : string => p === ZERO) (proof transaction)
      then throw (TransactionError
        "The data provided was inconsistent with a transaction type of SINGLE_TRANSFER" 1)
      else ret tt
  | Some 2 => (* double token transaction *)
      if (publicInputHash transaction === ZERO)
         || (tokenId transaction !== ZERO)
         || num_neq (Number (value transaction)) 0
         || (ercAddress transaction === ZERO)
         || (recipientAddress transaction !== ZERO)
         || existsb (fun c : string => c === ZERO) (commitments transaction)
         || length_neq (commitments transaction) 2
         || existsb (fun n : string => n === ZERO) (nullifiers transaction)
         || length_neq (nullifiers transaction) 2
         || forallb (fun cs : string => cs === ZERO) (compressedSecrets transaction)
         || length_neq (compressedSecrets transaction) 8
         || forallb (fun p : string => p === ZERO) (proof transaction)
      then throw (TransactionError
        "The data provided was inconsistent with a transaction type of DOUBLE_TRANSFER" 1)
      else ret tt
  | Some 3 => (* withdraw transaction *)
      if (publicInputHash transaction === ZERO)
         || (num_neq (Number (tokenType transaction)) 0
             && (tokenId transaction === ZERO)
             && num_eq (Number (value transaction)) 0)
         || (ercAddress transaction === ZERO)
         || (recipientAddress transaction === ZERO)
         || existsb (fun c : string => c !== ZERO) (commitments transaction)
         || (index (nullifiers transaction) 0 === ZERO)
         || (index (nullifiers transaction) 1 !== ZERO)
         || length_neq (nullifiers transaction) 2
         || existsb (fun cs : string => cs !== ZERO) (compressedSecrets transaction)
         || forallb (fun p : string => p === ZERO) (proof transaction)
      then throw (TransactionError
        "The data provided was inconsistent with a transaction type of WITHDRAW" 1)
      else ret tt
  | _ => throw (TransactionError "Unknown transaction type" 2)
  end.

(** [x === null] for a value that is a block, [null] ([Some None]) or
    [undefined] ([None], a destructured slot past the end of the array). *)
Definition is_null (x : option (option Block)) : bool :=
  match x with
  | Some None => true
  | _ => false
  end.

Definition checkHistoricRoot (transaction : Transaction) : M unit :=
  (if num_eq (Number (transactionType transaction)) 1
      || num_eq (Number (transactionType transaction)) 3
   then
     historicRootFirst <-
       getBlockByBlockNumberL2 (index (historicRootBlockNumberL2 transaction) 0) ;;
     if is_null (Some historicRootFirst)
     then throw (TransactionError
                   "The historic root in the transaction does not exist" 3)
     else ret tt
   else ret tt) ;;;
  (if num_eq (Number (transactionType transaction)) 2
   then
     found <- awaitAll (fun h : string => getBlockByBlockNumberL2 h)
                       (historicRootBlockNumberL2 transaction) ;;
     let historicRootFirst := nth_error found 0 in
     let historicRootSecond := nth_error found 1 in
     if is_null historicRootFirst || is_null historicRootSecond
     then throw (TransactionError
                   "The historic root in the transaction does not exist" 3)
     else ret tt
   else ret tt).

(** [x ?? d] for the answer of the block store *)
Definition nullish (x : option Block) (d : Block) : Block :=
  match x with
  | Some b => b
  | None => d
  end.

(** [new PublicInputs(elements).publicInputs], inside an [async] body *)
Definition new_PublicInputs (elements : list nested) : result (list N) :=
  match PublicInputs elements with
  | Some v => Ok v
  | None => Err (Exception "public input is not a number")
  end.

(** [hexes.map(...)] spread into the array literal *)
Definition spread (hexes : list string) : list nested :=
  map (fun h : string => Leaf h) hexes.

(** The [switch] of [verifyProof]: the public inputs of a transaction,
    given the two historic blocks (found, or replaced by [{ root: ZERO }]). *)
Definition publicInputsOf (transaction : Transaction)
           (historicRootFirst historicRootSecond : Block) : result (list N) :=
  match Number (transactionType transaction) with
  | Some 0 => (* deposit transaction *)
      new_PublicInputs
        [ Leaf (ercAddress transaction);
          Leaf (tokenId transaction);
          Leaf (value transaction);
          Leaf (index (commitments transaction) 0) ]
  | Some 1 => (* single transfer transaction *)
      match generalise_hex_32_31 (index (nullifiers transaction) 0),
            traverse (fun compressedSecret : string =>
                        generalise_hex_32_31 compressedSecret)
                     (compressedSecrets transaction) with
      | Some nullifier0, Some secrets =>
          new_PublicInputs
            ([ Leaf (ercAddress transaction);
               Leaf (index (commitments transaction) 0);
               Leaf nullifier0;
               Leaf (root historicRootFirst) ]
               ++ spread secrets)
      | _, _ => Err (Exception "public input is not a number")
      end
  | Some 2 => (* double transfer transaction *)
      match traverse (fun nullifier : string => generalise_hex_32_31 nullifier)
                     (nullifiers transaction),
            traverse (fun compressedSecret : string =>
                        generalise_hex_32_31 compressedSecret)
                     (compressedSecrets transaction) with
      | Some nulls, Some secrets =>
          new_PublicInputs
            ([ Leaf (ercAddress transaction);
               Leaf (ercAddress transaction);
               Arr (map (fun c : string => Leaf c) (commitments transaction));
               Arr (map (fun n : string => Leaf n) nulls);
               Leaf (root historicRootFirst);
               Leaf (root historicRootSecond) ]
               ++ spread secrets)
      | _, _ => Err (Exception "public input is not a number")
      end
  | Some 3 => (* withdraw transaction *)
      match generalise_hex_32_31 (index (nullifiers transaction) 0) with
      | Some nullifier0 =>
          new_PublicInputs
            [ Leaf (ercAddress transaction);
              Leaf (tokenId transaction);
              Leaf (value transaction);
              Leaf nullifier0;
              Leaf (recipientAddress transaction);
              Leaf (root historicRootFirst) ]
      | None => Err (Exception "public input is not a number")
      end
  | _ => Err (TransactionError "Unknown transaction type" 2)
  end.

Definition lift {A : Type} (r : result A) : M A := fun _ => ([], r).

Definition verifyProof (transaction : Transaction) : M unit :=
  vkArray <- getVerificationKey (transactionType transaction) ;;
  first <- getBlockByBlockNumberL2
             (index (historicRootBlockNumberL2 transaction) 0) ;;
  (let historicRootFirst := nullish first {| root := ZERO |} in
   second <- getBlockByBlockNumberL2
               (index (historicRootBlockNumberL2 transaction) 1) ;;
   (let historicRootSecond := nullish second {| root := ZERO |} in
    publicInputs <-
      lift (publicInputsOf transaction historicRootFirst historicRootSecond) ;;
    verifies <- post_verify {| vk := vkArray;
                               req_proof := proof transaction;
                               inputs := publicInputs |} ;;
    if negb verifies
    then throw (TransactionError "The proof did not verify" 5)
    else ret tt)).

(** ** The orchestrator *)

(** A called [async] function, seen from [Promise.all]: the collaborator
    calls it awaits before it settles, and how it settles. *)
Record promise : Type := {
  awaited : list event;
  settled : result unit
}.

Definition call (body : M unit) (env : Env) : promise :=
  let (evs, r) := body env in {| awaited := evs; settled := r |}.

(** Reasons of the promises that reject before any collaborator answers
    (they are already rejected when [Promise.all] subscribes), in array
    order. *)
Fixpoint rejected_at_once (ps : list promise) : list error :=
  match ps with
  | [] => []
  | {| awaited := []; settled := Err e |} :: rest => e :: rejected_at_once rest
  | _ :: rest => rejected_at_once rest
  end.

(** Reasons of the promises that reject after awaiting a collaborator. *)
Fixpoint rejected_later (ps : list promise) : list error :=
  match ps with
  | [] => []
  | {| awaited := _ :: _; settled := Err e |} :: rest => e :: rejected_later rest
  | _ :: rest => rejected_later rest
  end.

(** [Promise.all(ps)]: the settlements that can be observed.  It fulfils
    when every promise fulfils and otherwise rejects with the reason of the
    promise that rejects first.  Promises rejected at once are served in
    array order, before any answer of a collaborator arrives; among
    promises that reject after awaiting collaborators, whichever answer
    arrives first decides, so each of their reasons is possible. *)
Definition Promise_all (ps : list promise) : list (result unit) :=
  match rejected_at_once ps with
  | e :: _ => [Err e]
  | [] =>
      match rejected_later ps with
      | [] => [Ok tt]
      | reasons => map Err reasons
      end
  end.

Definition checks (transaction : Transaction) (env : Env) : list promise :=
  [ call (checkTransactionHash transaction) env;
    call (checkTransactionType transaction) env;
    call (checkHistoricRoot transaction) env;
    call (verifyProof transaction) env ].

Definition checkTransaction (transaction : Transaction) (env : Env)
  : list (result unit) :=
  Promise_all (checks transaction env).

(** Every collaborator call made on behalf of [checkTransaction]
    (rejection of one check does not stop the others). *)
Definition checkTransaction_awaited (transaction : Transaction) (env : Env)
  : list event :=
  flat_map awaited (checks transaction env).

(** ** Notions used to state the properties *)

(** The numbers held by an array of strings, when all of them are numeric. *)
Definition numbers (l : list string) : option (list N) :=
  traverse (fun s : string => generalise s) l.

(** A value cut down to its 31 low-order bytes. *)
Definition truncate31 (v : N) : N := v mod 256 ^ 31.

(** The number written by a sequence of bytes, most significant first. *)
Definition be_value (bytes : list N) : N :=
  fold_left (fun acc b => 256 * acc + b) bytes 0.

(** The public-input vector of a SINGLE_TRANSFER, DOUBLE_TRANSFER or
    WITHDRAW, entry by entry: [vec] lists the numbers held by the fields of
    [t] in the order of its type, every nullifier and every compressed
    secret cut down to its 31 low-order bytes and every other field whole,
    with [v1] and [v2] in the places of the first and of the second historic
    root.  (A WITHDRAW has no place for compressed secrets, a SINGLE_TRANSFER
    or WITHDRAW none for the second root.) *)
Definition laid_out (t : Transaction) (v1 v2 : N) (vec : list N) : Prop :=
  match Number (transactionType t) with
  | Some 1 =>
      exists (e c0 n0 : N) (ss : list N),
        generalise (ercAddress t) = Some e
        /\ generalise (index (commitments t) 0) = Some c0
        /\ generalise (index (nullifiers t) 0) = Some n0
        /\ numbers (compressedSecrets t) = Some ss
        /\ vec = [e; c0; truncate31 n0; v1] ++ map truncate31 ss
  | Some 2 =>
      exists (e : N) (cs ns ss : list N),
        generalise (ercAddress t) = Some e
        /\ numbers (commitments t) = Some cs
        /\ numbers (nullifiers t) = Some ns
        /\ numbers (compressedSecrets t) = Some ss
        /\ vec = [e; e] ++ cs ++ map truncate31 ns ++ [v1; v2]
                 ++ map truncate31 ss
  | Some 3 =>
      exists (e i a n0 rc : N),
        generalise (ercAddress t) = Some e
        /\ generalise (tokenId t) = Some i
        /\ generalise (value t) = Some a
        /\ generalise (index (nullifiers t) 0) = Some n0
        /\ generalise (recipientAddress t) = Some rc
        /\ vec = [e; i; a; truncate31 n0; rc; v1]
  | _ => False
  end.

(** How a called check settles, and what it awaits. *)
Definition outcome (body : M unit) (env : Env) : result unit := snd (body env).
Definition trace (body : M unit) (env : Env) : list event := fst (body env).

(** The error kinds of the checker. *)
Definition HashMismatch : error :=
  TransactionError "The transaction hash did not match the transaction data" 0.
Definition TypeInconsistent (name : string) : error :=
  TransactionError
    ("The data provided was inconsistent with a transaction type of " ++ name)%string 1.
Definition UnknownTransactionType : error :=
  TransactionError "Unknown transaction type" 2.
Definition HistoricRootNotFound : error :=
  TransactionError "The historic root in the transaction does not exist" 3.
Definition ProofInvalid : error :=
  TransactionError "The proof did not verify" 5.

(** [transaction] with other token data. *)
Definition with_token (transaction : Transaction) (type id amount : string)
  : Transaction :=
  {| transactionHash := transactionHash transaction;
     transactionType := transactionType transaction;
     tokenType := type;
     value := amount;
     publicInputHash := publicInputHash transaction;
     tokenId := id;
     ercAddress := ercAddress transaction;
     recipientAddress := recipientAddress transaction;
     commitments := commitments transaction;
     nullifiers := nullifiers transaction;
     compressedSecrets := compressedSecrets transaction;
     proof := proof transaction;
     historicRootBlockNumberL2 := historicRootBlockNumberL2 transaction |}.

(** The token rule of DEPOSIT and WITHDRAW, as the specification words it:
    the token type is fungible (code 0), or the token id is not [ZERO], or
    the value is not 0. *)
Definition token_rule (type id amount : string) : Prop :=
  Number type = Some 0 \/ id <> ZERO \/ Number amount <> Some 0.

(** The WITHDRAW case of [checkTransactionType], read as a template: what
    the branch tests.  The number of compressed secrets is not among it. *)
Definition withdraw_tested (t : Transaction) : Prop :=
  publicInputHash t <> ZERO
  /\ token_rule (tokenType t) (tokenId t) (value t)
  /\ ercAddress t <> ZERO
  /\ recipientAddress t <> ZERO
  /\ Forall (fun c => c = ZERO) (commitments t)
  /\ (exists n0, nullifiers t = [n0; ZERO] /\ n0 <> ZERO)
  /\ Forall (fun cs => cs = ZERO) (compressedSecrets t)
  /\ ~ Forall (fun p => p = ZERO) (proof t).

(** The WITHDRAW template as the specification words it: as above, and the
    compressed secrets are eight. *)
Definition withdraw_template (t : Transaction) : Prop :=
  publicInputHash t <> ZERO
  /\ token_rule (tokenType t) (tokenId t) (value t)
  /\ ercAddress t <> ZERO
  /\ recipientAddress t <> ZERO
  /\ Forall (fun c => c = ZERO) (commitments t)
  /\ (exists n0, nullifiers t = [n0; ZERO] /\ n0 <> ZERO)
  /\ (List.length (compressedSecrets t) = 8%nat
      /\ Forall (fun cs => cs = ZERO) (compressedSecrets t))
  /\ ~ Forall (fun p => p = ZERO) (proof t).

(** A promise that fulfils. *)
Definition fulfilled (p : promise) : Prop := settled p = Ok tt.

(** A value that [generalise] can read. *)
Definition numeric (x : jsval) : Prop := generalise x <> None.

(** A type code outside 0..3 ([NaN] included). *)
Definition unknown_type (t : Transaction) : Prop :=
  ~ In (Number (transactionType t)) [Some 0; Some 1; Some 2; Some 3].

(** ** Sample data *)

Module Samples.

Definition nullifier_hi : string :=
  "0xff000000000000000000000000000000000000000000000000000000000000ab".

Definition deposit : Transaction :=
  {| transactionHash := "0xaa";
     transactionType := "0";
     tokenType := "0";
     value := "5";
     publicInputHash := "0x11";
     tokenId := "0x3";
     ercAddress := "0x1";
     recipientAddress := ZERO;
     commitments := ["0x2"; ZERO];
     nullifiers := [ZERO; ZERO];
     compressedSecrets := repeat ZERO 8;
     proof := ["0x1"; "0x2"];
     historicRootBlockNumberL2 := ["0"; "0"] |}.

Definition single_transfer : Transaction :=
  {| transactionHash := "0xaa";
     transactionType := "1";
     tokenType := "0";
     value := "0";
     publicInputHash := "0x11";
     tokenId := ZERO;
     ercAddress := "0x1";
     recipientAddress := ZERO;
     commitments := ["0x2"; ZERO];
     nullifiers := [nullifier_hi; ZERO];
     compressedSecrets := "0x7" :: repeat ZERO 7;
     proof := ["0x1"; "0x2"];
     historicRootBlockNumberL2 := ["7"; "0"] |}.

Definition double_transfer : Transaction :=
  {| transactionHash := "0xaa";
     transactionType := "2";
     tokenType := "0";
     value := "0";
     publicInputHash := "0x11";
     tokenId := ZERO;
     ercAddress := "0x1";
     recipientAddress := ZERO;
     commitments := ["0x2"; "0x4"];
     nullifiers := [nullifier_hi; "0x6"];
     compressedSecrets := ["0x7"; "0x8"; "0x9"; "0xa"; "0xb"; "0xc"; "0xd"; "0xe"];
     proof := ["0x1"; "0x2"];
     historicRootBlockNumberL2 := ["7"; "8"] |}.

Definition withdraw : Transaction :=
  {| transactionHash := "0xaa";
     transactionType := "3";
     tokenType := "1";
     value := "0";
     publicInputHash := "0x11";
     tokenId := "0x3";
     ercAddress := "0x1";
     recipientAddress := "0x5";
     commitments := [ZERO; ZERO];
     nullifiers := ["0x6"; ZERO];
     compressedSecrets := repeat ZERO 8;
     proof := ["0x1"; "0x2"];
     historicRootBlockNumberL2 := ["7"; "0"] |}.

(** As [withdraw], with three compressed secrets instead of eight. *)
Definition withdraw_three_secrets : Transaction :=
  {| transactionHash := "0xaa";
     transactionType := "3";
     tokenType := "1";
     value := "0";
     publicInputHash := "0x11";
     tokenId := "0x3";
     ercAddress := "0x1";
     recipientAddress := "0x5";
     commitments := [ZERO; ZERO];
     nullifiers := ["0x6"; ZERO];
     compressedSecrets := [ZERO; ZERO; ZERO];
     proof := ["0x1"; "0x2"];
     historicRootBlockNumberL2 := ["7"; "0"] |}.

(** A transaction whose type code is 4. *)
Definition unknown : Transaction :=
  {| transactionHash := "0xaa";
     transactionType := "4";
     tokenType := "0";
     value := "5";
     publicInputHash := "0x11";
     tokenId := "0x3";
     ercAddress := "0x1";
     recipientAddress := ZERO;
     commitments := ["0x2"; ZERO];
     nullifiers := [ZERO; ZERO];
     compressedSecrets := repeat ZERO 8;
     proof := ["0x1"; "0x2"];
     historicRootBlockNumberL2 := ["0"; "0"] |}.

(** Block 7 is stored, with root [0x0a]; nothing else is. *)
Definition store (blockNumberL2 : jsval) : option Block :=
  if blockNumberL2 === "7" then Some {| root := "0x0a" |} else None.

(** The chain state holds a key for each of the four transaction types
    and fails on any other. *)
Definition keys (type : string) : option (list string) :=
  match Number type with
  | Some 0 | Some 1 | Some 2 | Some 3 => Some ["0x9"]
  | _ => None
  end.

(** Hashes match, block 7 exists, keys are served, every proof verifies. *)
Definition env_accepting : Env :=
  {| calcHash := fun _ => "0xaa";
     blocks := store;
     verificationKey := keys;
     verifier := fun _ => Some true |}.

(** As [env_accepting], but the store is empty and no proof verifies. *)
Definition env_rejecting : Env :=
  {| calcHash := fun _ => "0xaa";
     blocks := fun _ => None;
     verificationKey := keys;
     verifier := fun _ => Some false |}.

(** As [env_accepting], but the recomputed hash differs from the stored one. *)
Definition env_tampered : Env :=
  {| calcHash := fun _ => "0xbb";
     blocks := store;
     verificationKey := keys;
     verifier := fun _ => Some true |}.

(** Nothing is stored and the chain state cannot be read. *)
Definition env_offline : Env :=
  {| calcHash := fun _ => "0xaa";
     blocks := fun _ => None;
     verificationKey := fun _ => None;
     verifier := fun _ => Some true |}.

End Samples.

(** ** Notions for the further properties *)

(** Exactly one live slot: the array is [[x; ZERO]] with [x] not [ZERO]. *)
Definition one_live (l : list string) : Prop :=
  exists x, l = [x; ZERO] /\ x <> ZERO.

(** Exactly two live slots. *)
Definition two_live (l : list string) : Prop :=
  exists x y, l = [x; y] /\ x <> ZERO /\ y <> ZERO.

Definition all_ZERO (l : list string) : Prop := Forall (fun s => s = ZERO) l.

(** The DEPOSIT case of [checkTransactionType], read as a template. *)
Definition deposit_template (t : Transaction) : Prop :=
  publicInputHash t <> ZERO
  /\ token_rule (tokenType t) (tokenId t) (value t)
  /\ ercAddress t <> ZERO
  /\ recipientAddress t = ZERO
  /\ one_live (commitments t)
  /\ all_ZERO (nullifiers t)
  /\ all_ZERO (compressedSecrets t)
  /\ List.length (compressedSecrets t) = 8%nat
  /\ ~ all_ZERO (proof t)
  /\ Number (index (historicRootBlockNumberL2 t) 0) = Some 0
  /\ Number (index (historicRootBlockNumberL2 t) 1) = Some 0.

(** The SINGLE_TRANSFER case, read as a template. *)
Definition single_transfer_template (t : Transaction) : Prop :=
  publicInputHash t <> ZERO
  /\ tokenId t = ZERO
  /\ Number (value t) = Some 0
  /\ ercAddress t <> ZERO
  /\ recipientAddress t = ZERO
  /\ one_live (commitments t)
  /\ one_live (nullifiers t)
  /\ ~ all_ZERO (compressedSecrets t)
  /\ List.length (compressedSecrets t) = 8%nat
  /\ ~ all_ZERO (proof t).

(** The DOUBLE_TRANSFER case, read as a template. *)
Definition double_transfer_template (t : Transaction) : Prop :=
  publicInputHash t <> ZERO
  /\ tokenId t = ZERO
  /\ Number (value t) = Some 0
  /\ ercAddress t <> ZERO
  /\ recipientAddress t = ZERO
  /\ two_live (commitments t)
  /\ two_live (nullifiers t)
  /\ ~ all_ZERO (compressedSecrets t)
  /\ List.length (compressedSecrets t) = 8%nat
  /\ ~ all_ZERO (proof t).

(** [transaction] with other nullifiers. *)
Definition with_nullifiers (transaction : Transaction) (ns : list string)
  : Transaction :=
  {| transactionHash := transactionHash transaction;
     transactionType := transactionType transaction;
     tokenType := tokenType transaction;
     value := value transaction;
     publicInputHash := publicInputHash transaction;
     tokenId := tokenId transaction;
     ercAddress := ercAddress transaction;
     recipientAddress := recipientAddress transaction;
     commitments := commitments transaction;
     nullifiers := ns;
     compressedSecrets := compressedSecrets transaction;
     proof := proof transaction;
     historicRootBlockNumberL2 := historicRootBlockNumberL2 transaction |}.

(** ** Contract administration (the second module of [routes/kyc.mjs]) *)

Module Admin.

(** An entry of [RESTRICTIONS.tokens[network]]; only [name] and [address]
    are read. *)
Record token : Type := { name : string; address : string }.

(** A contract instance, as far as it is used: [options.address]. *)
Record contract : Type := { options_address : string }.

(** A contract method with its arguments, before [encodeABI()]. *)
Inductive method : Type :=
| setRestriction (tokenAddress depositRestriction withdrawRestriction : string)
| removeRestriction (tokenAddress : string)
| pause
| unpause
| transferShieldBalance_call (tokenAddress amount : string).

(** The configuration and the helpers outside the module.  [waitFor] is
    [waitForContract] and [sign] is [addMultiSigSignature], both
    asynchronous; [None] means that the promise rejects.  The last
    argument of [sign] is [undefined] when the caller leaves it out. *)
Record AdminEnv : Type := {
  SHIELD_CONTRACT_NAME : string;
  tokens : list token;
  waitFor : string -> option contract;
  encodeABI : method -> string;
  getTokenAddress : string -> string;
  sign : string -> string -> string -> jsval -> option string
}.

Inductive call_event : Type :=
| WaitForContract (contractName : string)
| AddMultiSigSignature (data signingKey contractAddress : string)
                       (executorAddress : jsval).

Definition A (X : Type) : Type := AdminEnv -> list call_event * result X.

Definition aret {X : Type} (x : X) : A X := fun _ => ([], Ok x).

Definition athrow {X : Type} (e : error) : A X := fun _ => ([], Err e).

Definition abind {X Y : Type} (m : A X) (k : X -> A Y) : A Y :=
  fun env =>
    match m env with
    | (evs, Ok x) => let (evs', r) := k x env in (evs ++ evs', r)
    | (evs, Err e) => (evs, Err e)
    end.

Notation "x <~ m ;; k" := (abind m (fun x => k))
  (at level 61, m at next level, right associativity).

Definition waitForContract (contractName : string) : A contract :=
  fun env =>
    ([WaitForContract contractName],
     match waitFor env contractName with
     | Some instance => Ok instance
     | None => Err (Exception "contract unavailable")
     end).

(** [await addMultiSigSignature(...)], or its promise returned from an
    [async] function *)
Definition addMultiSigSignature (data signingKey contractAddress : string)
           (executorAddress : jsval) : A string :=
  fun env =>
    ([AddMultiSigSignature data signingKey contractAddress executorAddress],
     match sign env data signingKey contractAddress executorAddress with
     | Some signed => Ok signed
     | None => Err (Exception "signature failed")
     end).

(** [addMultiSigSignature(...)] called and its promise dropped: the call is
    made, its settlement is never looked at. *)
Definition addMultiSigSignature_dropped
           (data signingKey contractAddress : string)
           (executorAddress : jsval) : A unit :=
  fun env =>
    ([AddMultiSigSignature data signingKey contractAddress executorAddress],
     Ok tt).

Definition methods_encodeABI (m : method) : A string :=
  fun env => ([], Ok (encodeABI env m)).

(** What [setTokenRestrictions] and [removeTokenRestrictions] return: the
    signature data, or [false]. *)
Inductive answer : Type :=
| ReturnedFalse
| Signed (signed : string).

(** The [for ... of] loop of [setTokenRestrictions] *)
Fixpoint setTokenRestrictions_loop (shieldContractInstance : contract)
         (remaining : list token)
         (tokenName depositRestriction withdrawRestriction : string)
         (signingKey executorAddress : string) : A answer :=
  match remaining with
  | [] => aret ReturnedFalse
  | token :: rest =>
      if String.eqb (name token) tokenName then
        data <~ methods_encodeABI
                  (setRestriction (address token) depositRestriction
                                  withdrawRestriction) ;;
        signed <~ addMultiSigSignature data signingKey
                    (options_address shieldContractInstance)
                    (Str executorAddress) ;;
        aret (Signed signed)
      else
        setTokenRestrictions_loop shieldContractInstance rest tokenName
          depositRestriction withdrawRestriction signingKey executorAddress
  end.

Definition setTokenRestrictions
           (tokenName depositRestriction withdrawRestriction : string)
           (signingKey executorAddress : string) : A answer :=
  fun env =>
    (shieldContractInstance <~ waitForContract (SHIELD_CONTRACT_NAME env) ;;
     setTokenRestrictions_loop shieldContractInstance (tokens env) tokenName
       depositRestriction withdrawRestriction signingKey executorAddress) env.

(** The [for ... of] loop of [removeTokenRestrictions] *)
Fixpoint removeTokenRestrictions_loop (shieldContractInstance : contract)
         (remaining : list token) (tokenName : string)
         (signingKey executorAddress : string) : A answer :=
  match remaining with
  | [] => aret ReturnedFalse
  | token :: rest =>
      if String.eqb (name token) tokenName then
        data <~ methods_encodeABI (removeRestriction (address token)) ;;
        signed <~ addMultiSigSignature data signingKey
                    (options_address shieldContractInstance)
                    (Str executorAddress) ;;
        aret (Signed signed)
      else
        removeTokenRestrictions_loop shieldContractInstance rest tokenName
          signingKey executorAddress
  end.

Definition removeTokenRestrictions (tokenName signingKey executorAddress : string)
  : A answer :=
  fun env =>
    (shieldContractInstance <~ waitForContract (SHIELD_CONTRACT_NAME env) ;;
     removeTokenRestrictions_loop shieldContractInstance (tokens env) tokenName
       signingKey executorAddress) env.

Definition pausables : list string := ["State"; "Shield"].

(** The settlements of [Promise.all] over called [async] functions that
    return values; as [Promise_all], with the values kept in array order. *)
Fixpoint all_fulfilled {X : Type} (ps : list (list call_event * result X))
  : option (list X) :=
  match ps with
  | [] => Some []
  | (_, Ok x) :: rest =>
      match all_fulfilled rest with
      | Some xs => Some (x :: xs)
      | None => None
      end
  | (_, Err _) :: _ => None
  end.

Fixpoint rejections_at_once {X : Type} (ps : list (list call_event * result X))
  : list error :=
  match ps with
  | [] => []
  | ([], Err e) :: rest => e :: rejections_at_once rest
  | _ :: rest => rejections_at_once rest
  end.

Fixpoint rejections_later {X : Type} (ps : list (list call_event * result X))
  : list error :=
  match ps with
  | [] => []
  | (_ :: _, Err e) :: rest => e :: rejections_later rest
  | _ :: rest => rejections_later rest
  end.

Definition Promise_all_values {X : Type}
           (ps : list (list call_event * result X)) : list (result (list X)) :=
  match all_fulfilled ps with
  | Some xs => [Ok xs]
  | None =>
      match rejections_at_once ps with
      | e :: _ => [Err e]
      | [] => map Err (rejections_later ps)
      end
  end.

(** The callback of [pauseContracts] *)
Definition pauseContracts_each (signingKey executorAddress pausable : string)
  : A string :=
  contractInstance <~ waitForContract pausable ;;
  data <~ methods_encodeABI pause ;;
  addMultiSigSignature data signingKey (options_address contractInstance)
                       (Str executorAddress).

Definition pauseContracts (signingKey executorAddress : string) (env : AdminEnv)
  : list (result (list string)) :=
  Promise_all_values
    (map (fun pausable => pauseContracts_each signingKey executorAddress pausable env)
         pausables).

(** The callback of [unpauseContracts]: the comma expression makes the call
    with three arguments, drops its promise and yields [executorAddress]. *)
Definition unpauseContracts_each (signingKey executorAddress pausable : string)
  : A string :=
  contractInstance <~ waitForContract pausable ;;
  data <~ methods_encodeABI unpause ;;
  _ <~ addMultiSigSignature_dropped data signingKey
         (options_address contractInstance) Undefined ;;
  aret executorAddress.

Definition unpauseContracts (signingKey executorAddress : string) (env : AdminEnv)
  : list (result (list string)) :=
  Promise_all_values
    (map (fun pausable => unpauseContracts_each signingKey executorAddress pausable env)
         pausables).

Definition transferShieldBalance (tokenName amount signingKey executorAddress : string)
  : A string :=
  fun env =>
    let tokenAddress := getTokenAddress env tokenName in
    if String.eqb tokenAddress "unknown"
    then athrow (Exception "Unknown token name") env
    else
      (shieldContractInstance <~ waitForContract (SHIELD_CONTRACT_NAME env) ;;
       data <~ methods_encodeABI (transferShieldBalance_call tokenAddress amount) ;;
       addMultiSigSignature data signingKey
         (options_address shieldContractInstance) (Str executorAddress)) env.

End Admin.

(** ** More sample data *)

Module MoreSamples.

(** As [Samples.env_accepting], with an empty block store. *)
Definition env_empty_store : Env :=
  {| calcHash := fun _ => "0xaa";
     blocks := fun _ => None;
     verificationKey := Samples.keys;
     verifier := fun _ => Some true |}.

(** The nullifier [0x6] with another top byte. *)
Definition nullifier_6_hi : string :=
  "0xff00000000000000000000000000000000000000000000000000000000000006".

Definition usdc : Admin.token :=
  {| Admin.name := "USDC"; Admin.address := "0xa1" |}.
Definition matic : Admin.token :=
  {| Admin.name := "MATIC"; Admin.address := "0xb2" |}.
Definition matic_again : Admin.token :=
  {| Admin.name := "MATIC"; Admin.address := "0xc3" |}.

(** Both pausable contracts are deployed; every signature is produced. *)
Definition admin_env : Admin.AdminEnv :=
  {| Admin.SHIELD_CONTRACT_NAME := "Shield";
     Admin.tokens := [usdc; matic; matic_again];
     Admin.waitFor := fun contractName =>
       if String.eqb contractName "Shield"
       then Some {| Admin.options_address := "0x51" |}
       else if String.eqb contractName "State"
       then Some {| Admin.options_address := "0x52" |}
       else None;
     Admin.encodeABI := fun m =>
       match m with
       | Admin.setRestriction a _ _ => ("set:" ++ a)%string
       | Admin.removeRestriction a => ("remove:" ++ a)%string
       | Admin.pause => "pause"
       | Admin.unpause => "unpause"
       | Admin.transferShieldBalance_call a _ => ("transfer:" ++ a)%string
       end;
     Admin.getTokenAddress := fun _ => "unknown";
     Admin.sign := fun data _ _ _ => Some ("signed:" ++ data)%string |}.

End MoreSamples.

(** * Properties *)

(** ** Hexadecimal strings and big-endian bytes *)

Lemma hex_digit_digit_char (d : N) : d < 16 -> hex_digit (digit_char d) = Some d.
Proof.
  intros Hd.
  assert (Hcases : In d [0;1;2;3;4;5;6;7;8;9;10;11;12;13;14;15]).
  { simpl. lia. }
  simpl in Hcases.
  repeat (destruct Hcases as [<- | Hcases]; [reflexivity |]).
  contradiction.
Qed.

Lemma digits_value_app (base : N) (digit : ascii -> option N) (s1 s2 : string) (acc : N) :
  digits_value base digit (s1 ++ s2)%string acc =
  match digits_value base digit s1 acc with
  | Some acc' => digits_value base digit s2 acc'
  | None => None
  end.
Proof.
  revert acc. induction s1 as [| c s1 IH]; intros acc; simpl.
  - reflexivity.
  - destruct (digit c); [apply IH | reflexivity].
Qed.

Lemma string_app_assoc (a b c : string) :
  ((a ++ b) ++ c = a ++ (b ++ c))%string.
Proof.
  induction a as [| x a IH]; simpl; [reflexivity | now rewrite IH].
Qed.

Lemma hex_digits_acc (n : nat) (v : N) (acc : string) :
  hex_digits n v acc = (hex_digits n v "" ++ acc)%string.
Proof.
  revert v acc. induction n as [| n IH]; intros v acc; simpl.
  - reflexivity.
  - rewrite (IH _ (String _ "")), IH.
    rewrite string_app_assoc. reflexivity.
Qed.

Lemma hex_digits_length (n : nat) (v : N) (acc : string) :
  String.length (hex_digits n v acc) = (n + String.length acc)%nat.
Proof.
  revert v acc. induction n as [| n IH]; intros v acc; simpl.
  - reflexivity.
  - rewrite IH. simpl. lia.
Qed.

Lemma digits_value_hex_digits (n : nat) (v acc : N) :
  digits_value 16 hex_digit (hex_digits n v "") acc
  = Some (acc * 16 ^ N.of_nat n + v mod 16 ^ N.of_nat n).
Proof.
  revert v acc. induction n as [| n IH]; intros v acc.
  - simpl. rewrite N.mod_1_r. f_equal. lia.
  - cbn [hex_digits]. rewrite hex_digits_acc, digits_value_app, IH.
    cbn [digits_value].
    rewrite hex_digit_digit_char by (apply N.mod_lt; lia).
    f_equal.
    rewrite Nnat.Nat2N.inj_succ, N.pow_succ_r'.
    rewrite (N.Div0.mod_mul_r v 16 (16 ^ N.of_nat n)). lia.
Qed.

Lemma numeric_literal_hex_digits (n : nat) (v : N) :
  numeric_literal ("0x" ++ hex_digits (S n) v "")
  = Some (v mod 16 ^ N.of_nat (S n)).
Proof.
  pose proof (hex_digits_length (S n) v "") as Hlen.
  pose proof (digits_value_hex_digits (S n) v 0) as Hval.
  destruct (hex_digits (S n) v "") as [| c rest]; [discriminate Hlen |].
  cbn [append numeric_literal]. rewrite Hval. f_equal.
Qed.

Lemma generalise_hex_truncated (v : N) :
  generalise (hex 32 31 v) = Some (v mod 256 ^ 31).
Proof.
  unfold generalise, hex.
  change (2 * 32)%nat with (S 63).
  rewrite numeric_literal_hex_digits. f_equal.
  change (N.of_nat 31) with 31.
  apply N.mod_small.
  eapply N.lt_trans; [apply N.mod_lt; discriminate | reflexivity].
Qed.

Lemma be_bytes_acc (n : nat) (v : N) (acc : list N) :
  be_bytes n v acc = be_bytes n v [] ++ acc.
Proof.
  revert v acc. induction n as [| n IH]; intros v acc; simpl.
  - reflexivity.
  - rewrite (IH _ [_]), IH, <- app_assoc. reflexivity.
Qed.

Lemma be_bytes_length (n : nat) (v : N) (acc : list N) :
  List.length (be_bytes n v acc) = (n + List.length acc)%nat.
Proof.
  revert v acc. induction n as [| n IH]; intros v acc; simpl.
  - reflexivity.
  - rewrite IH. simpl. lia.
Qed.

Lemma be_bytes_top (n : nat) (v : N) :
  be_bytes (S n) v [] = (v / 256 ^ N.of_nat n) mod 256 :: be_bytes n v [].
Proof.
  revert v. induction n as [| n IH]; intros v.
  - simpl. now rewrite N.div_1_r.
  - change (be_bytes (S (S n)) v []) with (be_bytes (S n) (v / 256) [v mod 256]).
    rewrite be_bytes_acc, IH. cbn [app].
    rewrite N.Div0.div_div, Nnat.Nat2N.inj_succ, N.pow_succ_r'.
    f_equal.
    cbn [be_bytes]. symmetry. apply be_bytes_acc.
Qed.

Lemma be_bytes_mod (n : nat) (v : N) (acc : list N) :
  be_bytes n (v mod 256 ^ N.of_nat n) acc = be_bytes n v acc.
Proof.
  revert v acc. induction n as [| n IH]; intros v acc.
  - reflexivity.
  - cbn [be_bytes].
    rewrite Nnat.Nat2N.inj_succ, N.pow_succ_r'.
    rewrite (N.Div0.mod_mul_r v 256 (256 ^ N.of_nat n)).
    assert (Hlow : (v mod 256 + 256 * ((v / 256) mod 256 ^ N.of_nat n)) mod 256
                   = v mod 256).
    { rewrite (N.mul_comm 256), N.Div0.mod_add. apply N.Div0.mod_mod. }
    assert (Hhigh : (v mod 256 + 256 * ((v / 256) mod 256 ^ N.of_nat n)) / 256
                    = (v / 256) mod 256 ^ N.of_nat n).
    { rewrite (N.mul_comm 256), N.div_add by discriminate.
      rewrite (N.div_small (v mod 256)) by (apply N.mod_lt; discriminate).
      reflexivity. }
    rewrite Hlow, Hhigh. apply IH.
Qed.

Lemma be_value_be_bytes (n : nat) (v : N) :
  be_value (be_bytes n v []) = v mod 256 ^ N.of_nat n.
Proof.
  unfold be_value. revert v. induction n as [| n IH]; intros v.
  - simpl. now rewrite N.mod_1_r.
  - cbn [be_bytes]. rewrite be_bytes_acc, fold_left_app, IH. cbn [fold_left].
    rewrite Nnat.Nat2N.inj_succ, N.pow_succ_r'.
    rewrite (N.Div0.mod_mul_r v 256 (256 ^ N.of_nat n)). lia.
Qed.

(** ** Shape of the public inputs *)

Lemma traverse_app {A B : Type} (f : A -> option B) (l1 l2 : list A) :
  traverse f (l1 ++ l2) =
  match traverse f l1, traverse f l2 with
  | Some a, Some b => Some (a ++ b)
  | _, _ => None
  end.
Proof.
  induction l1 as [| x l1 IH]; simpl.
  - destruct (traverse f l2); reflexivity.
  - rewrite IH. destruct (f x), (traverse f l1), (traverse f l2); reflexivity.
Qed.

Lemma traverse_map {A B C : Type} (g : A -> B) (f : B -> option C) (l : list A) :
  traverse f (map g l) = traverse (fun x => f (g x)) l.
Proof.
  induction l as [| x l IH]; simpl; [reflexivity | now rewrite IH].
Qed.

Lemma flat_leaves (l : list string) :
  flat_map flat (map (fun s : string => Leaf s) l) = map Str l.
Proof.
  induction l as [| s l IH]; simpl; [reflexivity | now rewrite IH].
Qed.

Lemma hexes_of_numbers (l : list string) (vs : list N) :
  numbers l = Some vs ->
  traverse (fun s : string => generalise_hex_32_31 s) l = Some (map (hex 32 31) vs).
Proof.
  unfold numbers. revert vs. induction l as [| s l IH]; intros vs H.
  - injection H as <-. reflexivity.
  - cbn [traverse] in *. unfold generalise_hex_32_31 at 1.
    destruct (generalise s) as [v |]; [| discriminate].
    destruct (traverse _ l) as [vs' |] eqn:E; [| discriminate].
    injection H as <-. rewrite (IH vs' eq_refl). reflexivity.
Qed.

Lemma numbers_of_hexes (vs : list N) :
  traverse generalise (map Str (map (hex 32 31) vs)) = Some (map truncate31 vs).
Proof.
  induction vs as [| v vs IH]; [reflexivity |].
  cbn [map traverse]. rewrite generalise_hex_truncated, IH. reflexivity.
Qed.

Lemma numbers_strs (l : list string) :
  traverse generalise (map Str l) = numbers l.
Proof. apply traverse_map. Qed.

Lemma hex_of_number (x : jsval) (v : N) :
  generalise x = Some v -> generalise_hex_32_31 x = Some (hex 32 31 v).
Proof. unfold generalise_hex_32_31. now intros ->. Qed.

Lemma double_transfer_inputs (t : Transaction) (r1 r2 : Block)
      (e v1 v2 : N) (cs ns ss : list N) :
  Number (transactionType t) = Some 2 ->
  generalise (ercAddress t) = Some e ->
  numbers (commitments t) = Some cs ->
  numbers (nullifiers t) = Some ns ->
  generalise (root r1) = Some v1 ->
  generalise (root r2) = Some v2 ->
  numbers (compressedSecrets t) = Some ss ->
  publicInputsOf t r1 r2
  = Ok ([e; e] ++ cs ++ map truncate31 ns ++ [v1; v2] ++ map truncate31 ss).
Proof.
  intros Hty He Hcs Hns Hr1 Hr2 Hss.
  unfold publicInputsOf. rewrite Hty.
  rewrite (hexes_of_numbers _ _ Hns), (hexes_of_numbers _ _ Hss).
  unfold new_PublicInputs, PublicInputs, spread.
  rewrite flat_map_app, flat_leaves.
  cbn [flat_map flat]. rewrite !flat_leaves, !app_nil_r.
  change ((Str (ercAddress t) :: nil) ++ (Str (ercAddress t) :: nil) ++
          map Str (commitments t) ++ map Str (map (hex 32 31) ns) ++
          (Str (root r1) :: nil) ++ (Str (root r2) :: nil))
    with ([Str (ercAddress t); Str (ercAddress t)] ++
          map Str (commitments t) ++ map Str (map (hex 32 31) ns) ++
          [Str (root r1); Str (root r2)]).
  rewrite <- !app_assoc.
  rewrite !traverse_app, !numbers_of_hexes, numbers_strs, Hcs.
  cbn [traverse]. rewrite He, Hr1, Hr2. reflexivity.
Qed.

Lemma single_transfer_inputs (t : Transaction) (r1 r2 : Block)
      (e c0 n0 v1 : N) (ss : list N) :
  Number (transactionType t) = Some 1 ->
  generalise (ercAddress t) = Some e ->
  generalise (index (commitments t) 0) = Some c0 ->
  generalise (index (nullifiers t) 0) = Some n0 ->
  generalise (root r1) = Some v1 ->
  numbers (compressedSecrets t) = Some ss ->
  publicInputsOf t r1 r2
  = Ok ([e; c0; truncate31 n0; v1] ++ map truncate31 ss).
Proof.
  intros Hty He Hc Hn Hr1 Hss.
  unfold publicInputsOf. rewrite Hty.
  rewrite (hex_of_number _ _ Hn), (hexes_of_numbers _ _ Hss).
  unfold new_PublicInputs, PublicInputs, spread.
  rewrite flat_map_app, flat_leaves.
  cbn [flat_map flat app].
  change (Str (ercAddress t) :: index (commitments t) 0 :: Str (hex 32 31 n0)
            :: Str (root r1) :: map Str (map (hex 32 31) ss))
    with ([Str (ercAddress t); index (commitments t) 0; Str (hex 32 31 n0);
           Str (root r1)] ++ map Str (map (hex 32 31) ss)).
  rewrite traverse_app, numbers_of_hexes.
  cbn [traverse]. rewrite He, Hc, Hr1, generalise_hex_truncated. reflexivity.
Qed.

Lemma withdraw_inputs (t : Transaction) (r1 r2 : Block) (e i a n0 rc v1 : N) :
  Number (transactionType t) = Some 3 ->
  generalise (ercAddress t) = Some e ->
  generalise (tokenId t) = Some i ->
  generalise (value t) = Some a ->
  generalise (index (nullifiers t) 0) = Some n0 ->
  generalise (recipientAddress t) = Some rc ->
  generalise (root r1) = Some v1 ->
  publicInputsOf t r1 r2 = Ok [e; i; a; truncate31 n0; rc; v1].
Proof.
  intros Hty He Hi Ha Hn Hrc Hr1.
  unfold publicInputsOf. rewrite Hty.
  rewrite (hex_of_number _ _ Hn).
  unfold new_PublicInputs, PublicInputs.
  cbn [flat_map flat app traverse].
  rewrite He, Hi, Ha, Hrc, Hr1, generalise_hex_truncated. reflexivity.
Qed.

Lemma numbers_of_traverse_hex (l hs : list string) :
  traverse (fun s : string => generalise_hex_32_31 s) l = Some hs ->
  exists vs, numbers l = Some vs /\ hs = map (hex 32 31) vs.
Proof.
  unfold numbers. revert hs. induction l as [| s l IH]; intros hs H.
  - injection H as <-. now exists [].
  - cbn [traverse] in *. unfold generalise_hex_32_31 at 1 in H.
    destruct (generalise s) as [v |]; [| discriminate].
    destruct (traverse _ l) as [hs' |]; [| discriminate].
    injection H as <-.
    destruct (IH hs' eq_refl) as (vs & -> & ->).
    now exists (v :: vs).
Qed.

(** A vector that [publicInputsOf] assembles for a type code 1, 2 or 3 is
    laid out as described, around the numbers of the two roots. *)
Lemma laid_out_sound (t : Transaction) (r1 r2 : Block) (vec : list N) :
  In (Number (transactionType t)) [Some 1; Some 2; Some 3] ->
  publicInputsOf t r1 r2 = Ok vec ->
  exists v1 v2 : N,
    generalise (root r1) = Some v1
    /\ (Number (transactionType t) = Some 2 -> generalise (root r2) = Some v2)
    /\ laid_out t v1 v2 vec.
Proof.
  unfold publicInputsOf, laid_out.
  intros [Hty | [Hty | [Hty | []]]]; rewrite <- Hty; cbv beta iota.
  - (* single transfer *)
    unfold generalise_hex_32_31 at 1.
    destruct (generalise (index (nullifiers t) 0)) as [n0 |]; [| discriminate].
    destruct (traverse _ (compressedSecrets t)) as [hs |] eqn:Es; [| discriminate].
    apply numbers_of_traverse_hex in Es as (ss & Hss & ->).
    unfold new_PublicInputs, PublicInputs, spread.
    rewrite flat_map_app, flat_leaves.
    cbn [flat_map flat app].
    change (Str (ercAddress t) :: index (commitments t) 0 :: Str (hex 32 31 n0)
              :: Str (root r1) :: map Str (map (hex 32 31) ss))
      with ([Str (ercAddress t); index (commitments t) 0; Str (hex 32 31 n0);
             Str (root r1)] ++ map Str (map (hex 32 31) ss)).
    rewrite traverse_app, numbers_of_hexes.
    cbn [traverse]. rewrite generalise_hex_truncated.
    destruct (generalise (ercAddress t)) as [e |]; [| discriminate].
    destruct (generalise (index (commitments t) 0)) as [c0 |]; [| discriminate].
    destruct (generalise (root r1)) as [v1 |]; [| discriminate].
    intros H. injection H as <-.
    exists v1, 0. split; [reflexivity |]. split; [discriminate |].
    exists e, c0, n0, ss. now rewrite Hss.
  - (* double transfer *)
    destruct (traverse _ (nullifiers t)) as [hn |] eqn:En; [| discriminate].
    destruct (traverse _ (compressedSecrets t)) as [hs |] eqn:Es; [| discriminate].
    apply numbers_of_traverse_hex in En as (ns & Hns & ->).
    apply numbers_of_traverse_hex in Es as (ss & Hss & ->).
    unfold new_PublicInputs, PublicInputs, spread.
    rewrite flat_map_app, flat_leaves.
    cbn [flat_map flat]. rewrite !flat_leaves, !app_nil_r.
    change ((Str (ercAddress t) :: nil) ++ (Str (ercAddress t) :: nil) ++
            map Str (commitments t) ++ map Str (map (hex 32 31) ns) ++
            (Str (root r1) :: nil) ++ (Str (root r2) :: nil))
      with ([Str (ercAddress t); Str (ercAddress t)] ++
            map Str (commitments t) ++ map Str (map (hex 32 31) ns) ++
            [Str (root r1); Str (root r2)]).
    rewrite <- !app_assoc.
    rewrite !traverse_app, !numbers_of_hexes, numbers_strs.
    cbn [traverse].
    destruct (generalise (ercAddress t)) as [e |]; [| discriminate].
    destruct (numbers (commitments t)) as [cs |]; [| discriminate].
    destruct (generalise (root r1)) as [v1 |]; [| discriminate].
    destruct (generalise (root r2)) as [v2 |]; [| discriminate].
    intros H. injection H as <-.
    exists v1, v2. split; [reflexivity |]. split; [reflexivity |].
    exists e, cs, ns, ss. now rewrite Hns, Hss.
  - (* withdraw *)
    unfold generalise_hex_32_31.
    destruct (generalise (index (nullifiers t) 0)) as [n0 |]; [| discriminate].
    unfold new_PublicInputs, PublicInputs.
    cbn [flat_map flat app traverse]. rewrite generalise_hex_truncated.
    destruct (generalise (ercAddress t)) as [e |]; [| discriminate].
    destruct (generalise (tokenId t)) as [i |]; [| discriminate].
    destruct (generalise (value t)) as [a |]; [| discriminate].
    destruct (generalise (recipientAddress t)) as [rc |]; [| discriminate].
    destruct (generalise (root r1)) as [v1 |]; [| discriminate].
    intros H. injection H as <-.
    exists v1, 0. split; [reflexivity |]. split; [discriminate |].
    now exists e, i, a, n0, rc.
Qed.

(** Conversely, fields that can be laid out around the numbers of two roots
    are assembled into that vector. *)
Lemma laid_out_complete (t : Transaction) (r1 r2 : Block) (v1 v2 : N)
      (vec : list N) :
  laid_out t v1 v2 vec ->
  generalise (root r1) = Some v1 ->
  (Number (transactionType t) = Some 2 -> generalise (root r2) = Some v2) ->
  publicInputsOf t r1 r2 = Ok vec.
Proof.
  unfold laid_out. intros H Hr1 Hr2.
  destruct (Number (transactionType t)) as [[| [[p | p |] | [p | p |] |]] |] eqn:Hty;
    try contradiction.
  - destruct H as (e & i & a & n0 & rc & He & Hi & Ha & Hn & Hrc & ->).
    now apply withdraw_inputs.
  - destruct H as (e & cs & ns & ss & He & Hcs & Hns & Hss & ->).
    apply double_transfer_inputs; auto.
  - destruct H as (e & c0 & n0 & ss & He & Hc & Hn & Hss & ->).
    now apply single_transfer_inputs.
Qed.

(** The fields that fit around one pair of roots fit around any other. *)
Lemma laid_out_roots (t : Transaction) (v1 v2 w1 w2 : N) (vec : list N) :
  laid_out t v1 v2 vec -> exists vec', laid_out t w1 w2 vec'.
Proof.
  unfold laid_out.
  destruct (Number (transactionType t)) as [[| [[p | p |] | [p | p |] |]] |];
    try contradiction.
  - intros (e & i & a & n0 & rc & He & Hi & Ha & Hn & Hrc & _).
    eexists. exists e, i, a, n0, rc. repeat (split; [eassumption |]). reflexivity.
  - intros (e & cs & ns & ss & He & Hcs & Hns & Hss & _).
    eexists. exists e, cs, ns, ss. repeat (split; [eassumption |]). reflexivity.
  - intros (e & c0 & n0 & ss & He & Hc & Hn & Hss & _).
    eexists. exists e, c0, n0, ss. repeat (split; [eassumption |]). reflexivity.
Qed.

(** Cutting a 32-byte value down to 31 bytes drops its top byte and keeps
    the others. *)
Lemma low_bytes_kept (v : N) :
  v < 256 ^ 32 ->
  be_bytes 32 v [] = (v / 256 ^ 31) mod 256 :: be_bytes 31 v []
  /\ be_value ((v / 256 ^ 31) mod 256 :: be_bytes 31 v []) = v
  /\ List.length (be_bytes 31 v []) = 31%nat
  /\ be_bytes 31 (truncate31 v) [] = be_bytes 31 v []
  /\ be_value (be_bytes 31 v []) = truncate31 v
  /\ be_bytes 32 (truncate31 v) [] = 0 :: be_bytes 31 v [].
Proof.
  intros Hv.
  assert (Htop : forall w, be_bytes 32 w [] = (w / 256 ^ 31) mod 256 :: be_bytes 31 w [])
    by (intros w; exact (be_bytes_top 31 w)).
  assert (Hlow : be_bytes 31 (truncate31 v) [] = be_bytes 31 v [])
    by exact (be_bytes_mod 31 v []).
  assert (Hval : forall w, be_value (be_bytes 31 w []) = w mod 256 ^ 31)
    by (intros w; exact (be_value_be_bytes 31 w)).
  repeat apply conj.
  - apply Htop.
  - rewrite <- Htop.
    rewrite (be_value_be_bytes 32 v). now apply N.mod_small.
  - exact (be_bytes_length 31 v []).
  - exact Hlow.
  - apply Hval.
  - rewrite Htop, Hlow. f_equal.
    rewrite N.div_small; [reflexivity |].
    apply N.mod_lt. discriminate.
Qed.

Lemma generalise_hex_whole (v : N) :
  v < 256 ^ 32 -> generalise (hex 32 32 v) = Some v.
Proof.
  intros Hv. unfold generalise, hex.
  change (2 * 32)%nat with (S 63).
  rewrite numeric_literal_hex_digits. f_equal.
  change (N.of_nat 32) with 32.
  change (16 ^ N.of_nat (S 63)) with (256 ^ 32).
  rewrite (N.mod_small v) by exact Hv.
  apply N.mod_small. exact Hv.
Qed.

(** ** The checks, step by step *)

Section Effects.

Variable env : Env.
Variable t : Transaction.

Let h0 : jsval := index (historicRootBlockNumberL2 t) 0.
Let h1 : jsval := index (historicRootBlockNumberL2 t) 1.
Let first : Block := nullish (blocks env h0) {| root := ZERO |}.
Let second : Block := nullish (blocks env h1) {| root := ZERO |}.

(** [verifyProof], step by step. *)
Lemma verifyProof_run :
  verifyProof t env =
  match verificationKey env (transactionType t) with
  | None =>
      ([GetVerificationKey (transactionType t)],
       Err (Exception "verification key unavailable"))
  | Some vkArray =>
      match publicInputsOf t first second with
      | Err e =>
          ([GetVerificationKey (transactionType t); GetBlock h0; GetBlock h1],
           Err e)
      | Ok v =>
          let req := {| vk := vkArray; req_proof := proof t; inputs := v |} in
          ([GetVerificationKey (transactionType t); GetBlock h0; GetBlock h1;
            Verify req],
           match verifier env req with
           | Some true => Ok tt
           | Some false => Err ProofInvalid
           | None => Err (Exception "verifier unavailable")
           end)
      end
  end.
Proof.
  unfold verifyProof, bind, getVerificationKey, getBlockByBlockNumberL2,
    post_verify, lift, first, second, h0, h1.
  destruct (verificationKey env (transactionType t)) as [vkArray |];
    [| reflexivity].
  destruct (publicInputsOf t _ _) as [v | e]; [| reflexivity].
  destruct (verifier env _) as [[|] |]; reflexivity.
Qed.

Lemma checkTransactionHash_run :
  checkTransactionHash t env =
  ([], if Transaction_checkHash env t then Ok tt else Err HashMismatch).
Proof.
  unfold checkTransactionHash.
  destruct (Transaction_checkHash env t); reflexivity.
Qed.

Lemma checkTransactionType_pure : trace (checkTransactionType t) env = [].
Proof.
  unfold trace, checkTransactionType.
  destruct (Number (transactionType t)) as [[| [[[]|[]|]|[[]|[]|]|]] |];
    try reflexivity;
    match goal with |- context [if ?c then _ else _] => destruct c end;
    reflexivity.
Qed.

End Effects.

Lemma awaitAll_getBlock (env : Env) (l : list string) :
  awaitAll (fun h : string => getBlockByBlockNumberL2 h) l env
  = (map (fun h : string => GetBlock h) l,
     Ok (map (fun h : string => blocks env h) l)).
Proof.
  induction l as [| h l IH]; [reflexivity |].
  cbn [awaitAll map]. unfold bind at 1. unfold getBlockByBlockNumberL2 at 1.
  unfold bind at 1. rewrite IH. unfold ret. cbv beta iota.
  rewrite app_nil_r. reflexivity.
Qed.

(** [checkHistoricRoot], by type code. *)
Lemma checkHistoricRoot_run (env : Env) (t : Transaction) :
  checkHistoricRoot t env =
  let h := historicRootBlockNumberL2 t in
  let code := Number (transactionType t) in
  if num_eq code 1 || num_eq code 3 then
    ([GetBlock (index h 0)],
     match blocks env (index h 0) with
     | None => Err HistoricRootNotFound
     | Some _ => Ok tt
     end)
  else if num_eq code 2 then
    (map (fun k : string => GetBlock k) h,
     let found := map (fun k : string => blocks env k) h in
     if is_null (nth_error found 0) || is_null (nth_error found 1)
     then Err HistoricRootNotFound else Ok tt)
  else ([], Ok tt).
Proof.
  unfold checkHistoricRoot. cbv zeta.
  assert (Hexcl : forall n, num_eq (Number (transactionType t)) n = true ->
                   Number (transactionType t) = Some n).
  { intros n. destruct (Number (transactionType t)) as [m |]; simpl;
      [| discriminate]. intros H. apply N.eqb_eq in H. now subst. }
  destruct (num_eq (Number (transactionType t)) 1 ||
            num_eq (Number (transactionType t)) 3) eqn:E13.
  - assert (E2 : num_eq (Number (transactionType t)) 2 = false).
    { apply orb_true_iff in E13 as [H | H]; apply Hexcl in H; rewrite H;
        reflexivity. }
    rewrite E2. unfold bind, getBlockByBlockNumberL2, is_null.
    destruct (blocks env _); reflexivity.
  - destruct (num_eq (Number (transactionType t)) 2) eqn:E2.
    + unfold bind at 1. cbn [ret]. unfold bind at 1.
      rewrite awaitAll_getBlock.
      destruct (is_null _ || is_null _); unfold throw, ret; cbv beta iota;
        rewrite app_nil_r; reflexivity.
    + reflexivity.
Qed.

Lemma call_eq (body : M unit) (env : Env) :
  call body env = {| awaited := trace body env; settled := outcome body env |}.
Proof. unfold call, trace, outcome. now destruct (body env). Qed.

Lemma checkTransactionHash_trace (t : Transaction) (env : Env) :
  trace (checkTransactionHash t) env = [].
Proof. unfold trace. now rewrite checkTransactionHash_run. Qed.

Lemma checkTransactionHash_outcome (t : Transaction) (env : Env) :
  outcome (checkTransactionHash t) env
  = if Transaction_checkHash env t then Ok tt else Err HashMismatch.
Proof. unfold outcome. now rewrite checkTransactionHash_run. Qed.

Lemma verifyProof_awaits (t : Transaction) (env : Env) :
  exists ev evs, trace (verifyProof t) env = ev :: evs.
Proof.
  unfold trace. rewrite verifyProof_run.
  destruct (verificationKey env _); [| now eexists; eexists].
  destruct (publicInputsOf t _ _); now eexists; eexists.
Qed.

Lemma checkHistoricRoot_failure_awaits (t : Transaction) (env : Env) (e : error) :
  outcome (checkHistoricRoot t) env = Err e ->
  exists ev evs, trace (checkHistoricRoot t) env = ev :: evs.
Proof.
  unfold trace, outcome. rewrite checkHistoricRoot_run. cbv zeta.
  destruct (_ || _); [intros _; now eexists; eexists |].
  destruct (num_eq _ 2); [| discriminate].
  destruct (historicRootBlockNumberL2 t) as [| a l]; [discriminate |].
  intros _. now eexists; eexists.
Qed.

(** ** Promise.all *)

Ltac from_rest IH H :=
  let p := fresh "p" in
  let Hp := fresh "Hp" in
  let Hs := fresh "Hs" in
  destruct (IH H) as (p & Hp & Hs); exists p; split; [now right | exact Hs].

Lemma rejected_at_once_sound (ps : list promise) (e : error) :
  In e (rejected_at_once ps) ->
  exists p, In p ps /\ settled p = Err e /\ awaited p = [].
Proof.
  induction ps as [| [evs r] ps IH]; [intros [] |].
  destruct evs as [| ev evs], r as [[] | e']; cbn [rejected_at_once];
    try (intros H; from_rest IH H).
  intros [<- | H]; [| from_rest IH H].
  eexists. split; [now left |]. split; reflexivity.
Qed.

Lemma rejected_later_sound (ps : list promise) (e : error) :
  In e (rejected_later ps) ->
  exists p, In p ps /\ settled p = Err e /\ awaited p <> [].
Proof.
  induction ps as [| [evs r] ps IH]; [intros [] |].
  destruct evs as [| ev evs], r as [[] | e']; cbn [rejected_later];
    try (intros H; from_rest IH H).
  intros [<- | H]; [| from_rest IH H].
  eexists. split; [now left |]. split; [reflexivity | discriminate].
Qed.

Lemma no_rejection (ps : list promise) :
  rejected_at_once ps = [] /\ rejected_later ps = [] <-> Forall fulfilled ps.
Proof.
  induction ps as [| [evs r] ps IH]; [split; [constructor | now split] |].
  destruct evs as [| ev evs], r as [[] | e'];
    cbn [rejected_at_once rejected_later].
  - rewrite IH. split; [now constructor | intros H; now inversion H].
  - split; [intros [H _]; discriminate H |].
    intros H. inversion H as [| ? ? Hp]. discriminate Hp.
  - rewrite IH. split; [now constructor | intros H; now inversion H].
  - split; [intros [_ H]; discriminate H |].
    intros H. inversion H as [| ? ? Hp]. discriminate Hp.
Qed.

Lemma Promise_all_nonempty (ps : list promise) : Promise_all ps <> [].
Proof.
  unfold Promise_all.
  destruct (rejected_at_once ps); [| discriminate].
  destruct (rejected_later ps); discriminate.
Qed.

Lemma Promise_all_fulfils (ps : list promise) :
  In (Ok tt) (Promise_all ps) <-> Forall fulfilled ps.
Proof.
  rewrite <- no_rejection. unfold Promise_all.
  destruct (rejected_at_once ps) as [| e l].
  - destruct (rejected_later ps) as [| e' l'].
    + split; [now split | now left].
    + split; [| intros [_ H]; discriminate H].
      intros H. apply in_map_iff in H as (x & Hx & _). discriminate Hx.
  - split; [| intros [H _]; discriminate H].
    intros [H | []]. discriminate H.
Qed.

Lemma Promise_all_all_fulfilled (ps : list promise) :
  Forall fulfilled ps -> Promise_all ps = [Ok tt].
Proof.
  intros H. apply no_rejection in H as [H1 H2].
  unfold Promise_all. now rewrite H1, H2.
Qed.

Lemma Promise_all_rejects (ps : list promise) (e : error) :
  In (Err e) (Promise_all ps) -> exists p, In p ps /\ settled p = Err e.
Proof.
  unfold Promise_all.
  destruct (rejected_at_once ps) as [| e1 l] eqn:E1.
  - destruct (rejected_later ps) as [| e2 l'] eqn:E2.
    + intros [H | []]. discriminate H.
    + intros H. apply in_map_iff in H as (x & Hx & Hin).
      injection Hx as ->. rewrite <- E2 in Hin.
      destruct (rejected_later_sound _ _ Hin) as (p & Hp & Hs & _).
      now exists p.
  - intros [H | []]. injection H as ->.
    assert (Hin : In e (rejected_at_once ps)) by (rewrite E1; now left).
    destruct (rejected_at_once_sound _ _ Hin) as (p & Hp & Hs & _).
    now exists p.
Qed.

Lemma settled_call (body : M unit) (env : Env) :
  settled (call body env) = outcome body env.
Proof. unfold call, outcome. now destruct (body env). Qed.

Lemma awaited_call (body : M unit) (env : Env) :
  awaited (call body env) = trace body env.
Proof. unfold call, trace. now destruct (body env). Qed.

(** [checkTransaction], by the outcomes of the four checks. *)
Lemma checkTransaction_run (t : Transaction) (env : Env) :
  checkTransaction t env =
  match outcome (checkTransactionHash t) env with
  | Err e => [Err e]
  | Ok _ =>
      match outcome (checkTransactionType t) env with
      | Err e => [Err e]
      | Ok _ =>
          match outcome (checkHistoricRoot t) env,
                outcome (verifyProof t) env with
          | Ok _, Ok _ => [Ok tt]
          | Err e, Ok _ => [Err e]
          | Ok _, Err e => [Err e]
          | Err e3, Err e5 => [Err e3; Err e5]
          end
      end
  end.
Proof.
  unfold checkTransaction, checks. rewrite !call_eq.
  rewrite checkTransactionHash_trace, checkTransactionType_pure.
  destruct (verifyProof_awaits t env) as (ev & evs & ->).
  pose proof (checkHistoricRoot_failure_awaits t env) as Hh.
  destruct (outcome (checkTransactionHash t) env) as [[] | e1];
    [| reflexivity].
  destruct (outcome (checkTransactionType t) env) as [[] | e2];
    [| reflexivity].
  destruct (outcome (checkHistoricRoot t) env) as [[] | e3].
  - destruct (trace (checkHistoricRoot t) env);
      destruct (outcome (verifyProof t) env) as [[] | e4]; reflexivity.
  - destruct (Hh e3 eq_refl) as (ev' & evs' & ->).
    destruct (outcome (verifyProof t) env) as [[] | e4]; reflexivity.
Qed.

(** ** The type check *)

Lemma outcome_if (c : bool) (e : error) (env : Env) :
  outcome (if c then throw e else ret tt) env = if c then Err e else Ok tt.
Proof. now destruct c. Qed.

Lemma strict_eq_true (s z : string) : (s === z) = true <-> s = z.
Proof. apply String.eqb_eq. Qed.

Lemma strict_eq_false (s z : string) : (s === z) = false <-> s <> z.
Proof. apply String.eqb_neq. Qed.

Lemma num_eq_true (x : option N) (k : N) : num_eq x k = true <-> x = Some k.
Proof.
  destruct x as [n |]; simpl; [| split; discriminate].
  rewrite N.eqb_eq. split; congruence.
Qed.

Lemma num_eq_false (x : option N) (k : N) : num_eq x k = false <-> x <> Some k.
Proof.
  rewrite <- num_eq_true. destruct (num_eq x k); split; congruence.
Qed.

(** The token condition of the DEPOSIT and WITHDRAW cases holds exactly when
    the token rule is broken. *)
Lemma token_condition (type id amount : string) :
  num_neq (Number type) 0 && (id === ZERO) && num_eq (Number amount) 0 = false
  <-> token_rule type id amount.
Proof.
  unfold token_rule, num_neq.
  rewrite <- (num_eq_true (Number type)), <- strict_eq_false, <- num_eq_false.
  destruct (num_eq (Number type) 0), (id === ZERO), (num_eq (Number amount) 0);
    simpl; intuition congruence.
Qed.

Lemma all_zero (l : list string) :
  existsb (fun c : string => c !== ZERO) l = false
  <-> Forall (fun c => c = ZERO) l.
Proof.
  induction l as [| c l IH]; cbn [existsb].
  - split; [constructor | reflexivity].
  - rewrite orb_false_iff, IH, negb_false_iff, strict_eq_true.
    split; [intros [H1 H2]; now constructor | intros H; now inversion H].
Qed.

Lemma every_zero (l : list string) :
  forallb (fun p : string => p === ZERO) l = true
  <-> Forall (fun p => p = ZERO) l.
Proof.
  induction l as [| p l IH]; cbn [forallb].
  - split; [constructor | reflexivity].
  - rewrite andb_true_iff, IH, strict_eq_true.
    split; [intros [H1 H2]; now constructor | intros H; now inversion H].
Qed.

Lemma one_live_nullifier (l : list string) :
  (index l 0 === ZERO) = false
  /\ (index l 1 !== ZERO) = false
  /\ length_neq l 2 = false
  <-> exists n0, l = [n0; ZERO] /\ n0 <> ZERO.
Proof.
  unfold length_neq. split.
  - intros (H0 & H1 & Hlen).
    destruct l as [| n0 [| n1 [| n2 l]]]; try discriminate.
    cbn [index nth_error] in H0, H1.
    apply strict_eq_false in H0. apply negb_false_iff, strict_eq_true in H1.
    exists n0. now subst.
  - intros (n0 & -> & Hn0). cbn [index nth_error].
    now rewrite strict_eq_false, negb_false_iff, strict_eq_true.
Qed.

Lemma token_rule_broken (type id amount : string) :
  ~ token_rule type id amount
  <-> Number type <> Some 0 /\ id = ZERO /\ Number amount = Some 0.
Proof.
  unfold token_rule.
  destruct (String.eqb_spec id ZERO) as [Hid | Hid];
    destruct (num_eq (Number amount) 0) eqn:Ha;
    [apply num_eq_true in Ha | apply num_eq_false in Ha
     | apply num_eq_true in Ha | apply num_eq_false in Ha];
    tauto.
Qed.

Ltac rest_of_template H :=
  repeat match type of H with
         | (_ || _) = false =>
             let H' := fresh "Hrest" in
             apply orb_false_iff in H as [H H']; try rewrite H'
         end.

Lemma unknown_type_default {A : Type} (t : Transaction) (a0 a1 a2 a3 d : A) :
  unknown_type t ->
  match Number (transactionType t) with
  | Some 0 => a0
  | Some 1 => a1
  | Some 2 => a2
  | Some 3 => a3
  | _ => d
  end = d.
Proof.
  unfold unknown_type. intros H.
  destruct (Number (transactionType t)) as [[| [[p | p |] | [p | p |] |]] |];
    try reflexivity; exfalso; apply H; simpl; tauto.
Qed.

(** ** Historic roots in the proof path *)

Lemma ZERO_numeric : generalise ZERO = Some 0.
Proof. vm_compute. reflexivity. Qed.

(** * The claims *)

(** ** Public inputs *)

(** C1.  For a DOUBLE_TRANSFER transaction (type code 2) with its two
    commitments, two nullifiers and eight compressed secrets, all numeric,
    the public inputs are one flat sequence, in this order: the ERC address,
    the ERC address once more, commitments[0], commitments[1], the two
    nullifiers cut down to 31 bytes, the root of the first and of the second
    historic block, and the eight compressed secrets, each cut down to 31
    bytes. *)
Theorem double_transfer_public_inputs (t : Transaction) (r1 r2 : Block)
        (e c0 c1 n0 n1 v1 v2 s0 s1 s2 s3 s4 s5 s6 s7 : N) :
  Number (transactionType t) = Some 2 ->
  generalise (ercAddress t) = Some e ->
  numbers (commitments t) = Some [c0; c1] ->
  numbers (nullifiers t) = Some [n0; n1] ->
  generalise (root r1) = Some v1 ->
  generalise (root r2) = Some v2 ->
  numbers (compressedSecrets t) = Some [s0; s1; s2; s3; s4; s5; s6; s7] ->
  publicInputsOf t r1 r2
  = Ok [ e; e; c0; c1; truncate31 n0; truncate31 n1; v1; v2;
         truncate31 s0; truncate31 s1; truncate31 s2; truncate31 s3;
         truncate31 s4; truncate31 s5; truncate31 s6; truncate31 s7 ].
Proof.
  intros Hty He Hcs Hns Hr1 Hr2 Hss.
  rewrite (double_transfer_inputs t r1 r2 e v1 v2 _ _ _ Hty He Hcs Hns Hr1 Hr2 Hss).
  reflexivity.
Qed.

Lemma double_transfer_public_inputs_witness :
  publicInputsOf Samples.double_transfer {| root := "0x0a" |} {| root := ZERO |}
  = Ok [1; 1; 2; 4; 171; 6; 10; 0; 7; 8; 9; 10; 11; 12; 13; 14].
Proof.
  exact (double_transfer_public_inputs
           Samples.double_transfer {| root := "0x0a" |} {| root := ZERO |}
           1 2 4 (255 * 256 ^ 31 + 171) 6 10 0 7 8 9 10 11 12 13 14
           eq_refl eq_refl eq_refl eq_refl eq_refl eq_refl eq_refl).
Defined.

(** C2.  Whenever the public inputs of a SINGLE_TRANSFER, DOUBLE_TRANSFER or
    WITHDRAW are assembled, the vector is the layout of that type and nothing
    else: every nullifier and every compressed secret that is included
    stands in its place as the number of [generalise(x).hex(32, 31)], its
    value cut down to the 31 low-order bytes, and every other entry is a
    field, or a root, read whole.  For a value [v] of at most 32 bytes, with
    big-endian bytes [top :: low], the number that is included is the one
    whose 31 big-endian bytes are exactly [low]: the top byte is lost and
    every other byte is kept.  (The string written in between is 32 bytes
    wide, a zero byte in front of [low].) *)
Theorem truncation_drops_exactly_the_top_byte
        (t : Transaction) (r1 r2 : Block) (vec : list N) :
  In (Number (transactionType t)) [Some 1; Some 2; Some 3] ->
  publicInputsOf t r1 r2 = Ok vec ->
  (exists v1 v2 : N,
      generalise (root r1) = Some v1
      /\ (Number (transactionType t) = Some 2 -> generalise (root r2) = Some v2)
      /\ laid_out t v1 v2 vec)
  /\ forall v : N,
       v < 256 ^ 32 ->
       exists (top : N) (low : list N),
         generalise_hex_32_31 (hex 32 32 v) = Some (hex 32 31 v)
         /\ generalise (hex 32 31 v) = Some (truncate31 v)
         /\ be_bytes 32 v [] = top :: low
         /\ be_value (top :: low) = v
         /\ List.length low = 31%nat
         /\ be_bytes 31 (truncate31 v) [] = low
         /\ be_value low = truncate31 v
         /\ be_bytes 32 (truncate31 v) [] = 0 :: low.
Proof.
  intros Hty Hvec. split; [now apply laid_out_sound |].
  intros v Hv.
  destruct (low_bytes_kept v Hv) as (Htop & Hall & Hlen & Hlow & Hval & Hzero).
  exists ((v / 256 ^ 31) mod 256), (be_bytes 31 v []).
  repeat apply conj; try assumption.
  - apply hex_of_number. apply generalise_hex_whole. exact Hv.
  - apply generalise_hex_truncated.
Qed.

Lemma truncation_drops_exactly_the_top_byte_witness :
  (exists v1 v2 : N,
      generalise (root {| root := "0x0a" |}) = Some v1
      /\ (Number (transactionType Samples.single_transfer) = Some 2 ->
          generalise (root {| root := ZERO |}) = Some v2)
      /\ laid_out Samples.single_transfer v1 v2
                  [1; 2; 171; 10; 7; 0; 0; 0; 0; 0; 0; 0])
  /\ forall v : N,
       v < 256 ^ 32 ->
       exists (top : N) (low : list N),
         generalise_hex_32_31 (hex 32 32 v) = Some (hex 32 31 v)
         /\ generalise (hex 32 31 v) = Some (truncate31 v)
         /\ be_bytes 32 v [] = top :: low
         /\ be_value (top :: low) = v
         /\ List.length low = 31%nat
         /\ be_bytes 31 (truncate31 v) [] = low
         /\ be_value low = truncate31 v
         /\ be_bytes 32 (truncate31 v) [] = 0 :: low.
Proof.
  apply (truncation_drops_exactly_the_top_byte
           Samples.single_transfer {| root := "0x0a" |} {| root := ZERO |}).
  - vm_compute. tauto.
  - vm_compute. reflexivity.
Defined.

(** C8.  For a DEPOSIT transaction (type code 0) the public inputs are
    exactly the ERC address, the token id, the value and commitments[0], in
    that order, whatever the historic blocks are; with ercAddress 0x1,
    tokenId 0x3, value 5 and commitments[0] 0x2 they are [1; 3; 5; 2]. *)
Theorem deposit_public_inputs (t : Transaction) (r1 r2 : Block) (e i a c0 : N) :
  Number (transactionType t) = Some 0 ->
  generalise (ercAddress t) = Some e ->
  generalise (tokenId t) = Some i ->
  generalise (value t) = Some a ->
  generalise (index (commitments t) 0) = Some c0 ->
  publicInputsOf t r1 r2 = Ok [e; i; a; c0].
Proof.
  intros Hty He Hi Ha Hc.
  unfold publicInputsOf. rewrite Hty.
  unfold new_PublicInputs, PublicInputs.
  cbn [flat_map flat app traverse].
  now rewrite He, Hi, Ha, Hc.
Qed.

Lemma deposit_public_inputs_witness :
  publicInputsOf Samples.deposit {| root := ZERO |} {| root := ZERO |}
  = Ok [1; 3; 5; 2].
Proof.
  apply (deposit_public_inputs Samples.deposit _ _ 1 3 5 2); reflexivity.
Defined.

(** ** The type check *)

(** C4.  Take a DEPOSIT or WITHDRAW transaction that the type check
    accepts, so that every other field fits the template, and give it any
    token type, token id and value.  The check then rejects, with the
    TypeInconsistent error of that type, exactly when the token type is not
    fungible (its code is not 0), the token id is [ZERO] and the value is 0;
    it accepts exactly when the token type is fungible, or the token id is
    not [ZERO], or the value is not 0. *)
Theorem token_rule_check (t : Transaction) (env : Env) (type id amount : string) :
  Number (transactionType t) = Some 0 \/ Number (transactionType t) = Some 3 ->
  outcome (checkTransactionType t) env = Ok tt ->
  let name := match Number (transactionType t) with
              | Some 0 => "DEPOSIT"
              | _ => "WITHDRAW"
              end in
  let t' := with_token t type id amount in
  token_rule (tokenType t) (tokenId t) (value t)
  /\ (outcome (checkTransactionType t') env = Ok tt
      <-> token_rule type id amount)
  /\ (outcome (checkTransactionType t') env = Err (TypeInconsistent name)
      <-> Number type <> Some 0 /\ id = ZERO /\ Number amount = Some 0).
Proof.
  intros Hty Hok. cbv zeta. rewrite <- token_rule_broken.
  unfold checkTransactionType in *.
  cbn [with_token transactionType tokenType value publicInputHash tokenId
       ercAddress recipientAddress commitments nullifiers compressedSecrets
       proof historicRootBlockNumberL2].
  destruct Hty as [Hty | Hty]; rewrite Hty in *; rewrite outcome_if in *.
  - match type of Hok with (if ?c then _ else _) = _ =>
      destruct c eqn:Hc; [discriminate Hok |] end.
    rest_of_template Hc. rewrite Hc. cbn [orb]. rewrite !orb_false_r.
    match goal with
    | Htoken : _ && _ && _ = false |- _ =>
        apply token_condition in Htoken; split; [exact Htoken |]
    end.
    rewrite <- token_condition.
    destruct (_ && _ && _); split; split; try congruence; try reflexivity;
      intros H; exfalso; now apply H.
  - match type of Hok with (if ?c then _ else _) = _ =>
      destruct c eqn:Hc; [discriminate Hok |] end.
    rest_of_template Hc. rewrite Hc. cbn [orb]. rewrite !orb_false_r.
    match goal with
    | Htoken : _ && _ && _ = false |- _ =>
        apply token_condition in Htoken; split; [exact Htoken |]
    end.
    rewrite <- token_condition.
    destruct (_ && _ && _); split; split; try congruence; try reflexivity;
      intros H; exfalso; now apply H.
Qed.

Lemma token_rule_check_witness :
  outcome (checkTransactionType (with_token Samples.withdraw "1" ZERO "0"))
          Samples.env_accepting
  = Err (TypeInconsistent "WITHDRAW").
Proof.
  refine (proj2 (proj2 (proj2
    (token_rule_check Samples.withdraw Samples.env_accepting "1" ZERO "0" _ _)))
    _).
  - right. reflexivity.
  - vm_compute. reflexivity.
  - split; [discriminate | split; reflexivity].
Defined.

(** C5.  The WITHDRAW case of the type check does not count the compressed
    secrets.  For a WITHDRAW transaction (type code 3) the check accepts
    exactly when: public input hash not [ZERO], token rule satisfied, ERC
    address and recipient address not [ZERO], every commitment [ZERO],
    nullifiers of length 2 with the first not [ZERO] and the second [ZERO],
    every compressed secret [ZERO], proof not all [ZERO]; otherwise it
    throws the TypeInconsistent error that names WITHDRAW.  The template of
    the specification asks for eight compressed secrets besides.  So every
    transaction that fits the template is accepted, and a transaction that
    fits it except for the number of its compressed secrets is accepted
    too, where the template asks for TypeInconsistent. *)
Theorem withdraw_check_does_not_count_the_secrets (t : Transaction) (env : Env) :
  Number (transactionType t) = Some 3 ->
  (outcome (checkTransactionType t) env = Ok tt <-> withdraw_tested t)
  /\ (~ withdraw_tested t ->
      outcome (checkTransactionType t) env = Err (TypeInconsistent "WITHDRAW"))
  /\ (withdraw_template t
      <-> withdraw_tested t /\ List.length (compressedSecrets t) = 8%nat)
  /\ (withdraw_tested t -> List.length (compressedSecrets t) <> 8%nat ->
      ~ withdraw_template t
      /\ outcome (checkTransactionType t) env = Ok tt).
Proof.
  intros Hty.
  assert (Hsplit : withdraw_template t
                   <-> withdraw_tested t
                       /\ List.length (compressedSecrets t) = 8%nat).
  { unfold withdraw_template, withdraw_tested. tauto. }
  unfold checkTransactionType. rewrite Hty.
  rewrite outcome_if.
  match goal with |- context [if ?c then _ else _] => set (cond := c) end.
  assert (Hcond : cond = false <-> withdraw_tested t).
  { unfold cond, withdraw_tested.
    rewrite !orb_false_iff, token_condition, all_zero, all_zero,
      <- one_live_nullifier,
      <- (not_true_iff_false (forallb _ (proof t))), every_zero.
    rewrite !strict_eq_false.
    tauto. }
  destruct cond.
  - split; [rewrite <- Hcond; split; discriminate |].
    split; [reflexivity |].
    split; [exact Hsplit |].
    intros Htested _. apply Hcond in Htested. discriminate Htested.
  - split; [rewrite <- Hcond; split; reflexivity |].
    split; [intros Hnot; exfalso; now apply Hnot, Hcond |].
    split; [exact Hsplit |].
    intros _ Hlen. split; [| reflexivity].
    intros Htemplate. apply Hsplit in Htemplate. now apply Hlen.
Qed.

Lemma withdraw_check_does_not_count_the_secrets_witness :
  ~ withdraw_template Samples.withdraw_three_secrets
  /\ outcome (checkTransactionType Samples.withdraw_three_secrets)
             Samples.env_accepting
     = Ok tt.
Proof.
  refine (proj2 (proj2 (proj2
    (withdraw_check_does_not_count_the_secrets
       Samples.withdraw_three_secrets Samples.env_accepting eq_refl))) _ _).
  - unfold withdraw_tested, token_rule. cbn.
    repeat apply conj; try discriminate.
    + right. left. discriminate.
    + repeat constructor.
    + exists "0x6". split; [reflexivity | discriminate].
    + repeat constructor.
    + intros H. inversion H as [| ? ? Hp _]. discriminate Hp.
  - cbn. discriminate.
Defined.

(** C3, amended.  For a transaction whose type code is outside 0..3 the
    type check fails with UnknownTransactionType and the historic root check
    consults nothing.  The other checks still run: the hash is compared, and
    the proof path asks for the verification key and, when it is served,
    looks up both historic blocks before it fails, without ever calling the
    remote verifier.  The orchestrator rejects with UnknownTransactionType
    when the hash matches, and with HashMismatch when it does not. *)
Theorem unknown_type_is_rejected (t : Transaction) (env : Env) :
  unknown_type t ->
  outcome (checkTransactionType t) env = Err UnknownTransactionType
  /\ checkTransaction t env
     = [Err (if Transaction_checkHash env t
             then UnknownTransactionType else HashMismatch)]
  /\ trace (checkHistoricRoot t) env = []
  /\ trace (verifyProof t) env
     = match verificationKey env (transactionType t) with
       | Some _ =>
           [ GetVerificationKey (transactionType t);
             GetBlock (index (historicRootBlockNumberL2 t) 0);
             GetBlock (index (historicRootBlockNumberL2 t) 1) ]
       | None => [GetVerificationKey (transactionType t)]
       end
  /\ (forall req, ~ In (Verify req) (checkTransaction_awaited t env)).
Proof.
  intros Hu.
  assert (Hty : outcome (checkTransactionType t) env = Err UnknownTransactionType).
  { unfold checkTransactionType. now rewrite unknown_type_default. }
  assert (Hh : trace (checkHistoricRoot t) env = []).
  { unfold trace. rewrite checkHistoricRoot_run. cbv zeta.
    unfold unknown_type in Hu.
    destruct (Number (transactionType t)) as [n |]; [| reflexivity].
    cbn [num_eq].
    destruct (N.eqb_spec n 1); [subst; exfalso; apply Hu; simpl; tauto |].
    destruct (N.eqb_spec n 3); [subst; exfalso; apply Hu; simpl; tauto |].
    destruct (N.eqb_spec n 2); [subst; exfalso; apply Hu; simpl; tauto |].
    reflexivity. }
  assert (Hv : trace (verifyProof t) env
     = match verificationKey env (transactionType t) with
       | Some _ =>
           [ GetVerificationKey (transactionType t);
             GetBlock (index (historicRootBlockNumberL2 t) 0);
             GetBlock (index (historicRootBlockNumberL2 t) 1) ]
       | None => [GetVerificationKey (transactionType t)]
       end).
  { unfold trace. rewrite verifyProof_run.
    destruct (verificationKey env _); [| reflexivity].
    unfold publicInputsOf. now rewrite unknown_type_default. }
  split; [exact Hty |]. split; [| split; [exact Hh | split; [exact Hv |]]].
  - rewrite checkTransaction_run, checkTransactionHash_outcome, Hty.
    now destruct (Transaction_checkHash env t).
  - intros req. unfold checkTransaction_awaited, checks.
    cbn [flat_map]. rewrite !awaited_call, app_nil_r.
    rewrite checkTransactionHash_trace, checkTransactionType_pure, Hh, Hv.
    destruct (verificationKey env _); simpl; intuition discriminate.
Qed.

Lemma unknown_type_is_rejected_witness :
  checkTransaction Samples.unknown Samples.env_accepting
  = [Err UnknownTransactionType].
Proof.
  refine (proj1 (proj2
    (unknown_type_is_rejected Samples.unknown Samples.env_accepting _))).
  unfold unknown_type. vm_compute. intuition discriminate.
Defined.

(** C3 as stated fails: for type code 4 with a tampered hash the outcome is
    HashMismatch, not UnknownTransactionType; and with a matching hash the
    proof path still asks the chain state for a verification key. *)
Lemma unknown_type_other_checks_run :
  unknown_type Samples.unknown
  /\ checkTransaction Samples.unknown Samples.env_tampered = [Err HashMismatch]
  /\ ~ In (Err UnknownTransactionType)
          (checkTransaction Samples.unknown Samples.env_tampered)
  /\ checkTransaction_awaited Samples.unknown Samples.env_accepting
     = [GetVerificationKey "4"].
Proof.
  split; [| split; [| split]].
  - unfold unknown_type. vm_compute. intuition discriminate.
  - vm_compute. reflexivity.
  - vm_compute. intuition discriminate.
  - vm_compute. reflexivity.
Qed.

(** ** The historic root check *)

(** C6.  With the two historic block numbers [a] and [b] of a transaction:
    for SINGLE_TRANSFER and WITHDRAW the check looks up [a] only and fails
    with HistoricRootNotFound exactly when that lookup returns null; for
    DOUBLE_TRANSFER it looks up [a] and [b] and fails exactly when one of the
    lookups returns null; for DEPOSIT and every other type code it succeeds
    without consulting the block store. *)
Theorem historic_root_check (t : Transaction) (env : Env) (a b : string) :
  historicRootBlockNumberL2 t = [a; b] ->
  (Number (transactionType t) = Some 1 \/ Number (transactionType t) = Some 3 ->
   trace (checkHistoricRoot t) env = [GetBlock a]
   /\ (outcome (checkHistoricRoot t) env = Err HistoricRootNotFound
       <-> blocks env a = None)
   /\ (outcome (checkHistoricRoot t) env = Ok tt <-> blocks env a <> None))
  /\ (Number (transactionType t) = Some 2 ->
      trace (checkHistoricRoot t) env = [GetBlock a; GetBlock b]
      /\ (outcome (checkHistoricRoot t) env = Err HistoricRootNotFound
          <-> blocks env a = None \/ blocks env b = None)
      /\ (outcome (checkHistoricRoot t) env = Ok tt
          <-> blocks env a <> None /\ blocks env b <> None))
  /\ (Number (transactionType t) <> Some 1 ->
      Number (transactionType t) <> Some 2 ->
      Number (transactionType t) <> Some 3 ->
      trace (checkHistoricRoot t) env = []
      /\ outcome (checkHistoricRoot t) env = Ok tt).
Proof.
  intros Hh. unfold trace, outcome.
  rewrite checkHistoricRoot_run. cbv zeta. rewrite Hh.
  repeat apply conj.
  - intros [-> | ->]; cbn [num_eq N.eqb Pos.eqb orb index nth_error fst snd];
      destruct (blocks env a); repeat apply conj;
      try reflexivity; try split; congruence.
  - intros ->. cbn [num_eq N.eqb Pos.eqb orb index nth_error fst snd map is_null].
    destruct (blocks env a), (blocks env b); cbn [orb is_null];
      repeat apply conj; try reflexivity; try split;
      try congruence; try tauto; intuition congruence.
  - intros H1 H2 H3.
    destruct (Number (transactionType t)) as [n |]; [| split; reflexivity].
    cbn [num_eq].
    destruct (N.eqb_spec n 1); [congruence |].
    destruct (N.eqb_spec n 3); [congruence |].
    destruct (N.eqb_spec n 2); [congruence |].
    split; reflexivity.
Qed.

Lemma historic_root_check_witness :
  outcome (checkHistoricRoot Samples.double_transfer) Samples.env_accepting
  = Err HistoricRootNotFound.
Proof.
  refine (proj2 (proj1 (proj2 (proj1 (proj2
    (historic_root_check Samples.double_transfer Samples.env_accepting
                         "7" "8" eq_refl)) eq_refl))) _).
  right. reflexivity.
Defined.

(** ** The orchestrator *)

(** C7.  [checkTransaction] always settles; it can fulfil exactly when the
    hash check, the type check, the historic root check and the proof path
    all succeed, and then it does fulfil; when it rejects, the reason is the
    error of one of the four checks; and when one of them fails, every
    possible settlement is a rejection. *)
Theorem checkTransaction_all_or_nothing (t : Transaction) (env : Env) :
  let all_succeed :=
    outcome (checkTransactionHash t) env = Ok tt
    /\ outcome (checkTransactionType t) env = Ok tt
    /\ outcome (checkHistoricRoot t) env = Ok tt
    /\ outcome (verifyProof t) env = Ok tt in
  checkTransaction t env <> []
  /\ (In (Ok tt) (checkTransaction t env) <-> all_succeed)
  /\ (all_succeed -> checkTransaction t env = [Ok tt])
  /\ (forall e, In (Err e) (checkTransaction t env) ->
      outcome (checkTransactionHash t) env = Err e
      \/ outcome (checkTransactionType t) env = Err e
      \/ outcome (checkHistoricRoot t) env = Err e
      \/ outcome (verifyProof t) env = Err e)
  /\ (~ all_succeed ->
      forall o, In o (checkTransaction t env) -> exists e, o = Err e).
Proof.
  cbv zeta. unfold checkTransaction.
  assert (Hall : Forall fulfilled (checks t env) <->
                 outcome (checkTransactionHash t) env = Ok tt
                 /\ outcome (checkTransactionType t) env = Ok tt
                 /\ outcome (checkHistoricRoot t) env = Ok tt
                 /\ outcome (verifyProof t) env = Ok tt).
  { unfold checks, fulfilled. rewrite <- !settled_call. split.
    - intros Ha. inversion_clear Ha as [| ? ? H1 Hb].
      inversion_clear Hb as [| ? ? H2 Hc]. inversion_clear Hc as [| ? ? H3 Hd].
      inversion_clear Hd as [| ? ? H4 _]. tauto.
    - intros (H1 & H2 & H3 & H4). repeat constructor; assumption. }
  split; [| split; [| split; [| split]]].
  - apply Promise_all_nonempty.
  - rewrite Promise_all_fulfils. exact Hall.
  - intros H. apply Promise_all_all_fulfilled, Hall, H.
  - intros e He. apply Promise_all_rejects in He as (p & Hp & Hs).
    rewrite <- !settled_call. unfold checks in Hp. simpl in Hp.
    destruct Hp as [<- | [<- | [<- | [<- | []]]]]; tauto.
  - intros Hnot [[] | e] Hin; [| now exists e].
    exfalso. apply Hnot, Hall, Promise_all_fulfils, Hin.
Qed.

(** C9, amended.  Against one environment, any two settlements of
    [checkTransaction] on the same transaction agree on accept or reject;
    they are the same settlement, error included, whenever the hash check or
    the type check fails, or the historic root check or the proof path
    succeeds. *)
Theorem verdict_is_deterministic (t : Transaction) (env : Env)
        (o1 o2 : result unit) :
  In o1 (checkTransaction t env) ->
  In o2 (checkTransaction t env) ->
  (o1 = Ok tt <-> o2 = Ok tt)
  /\ (outcome (checkTransactionHash t) env <> Ok tt
      \/ outcome (checkTransactionType t) env <> Ok tt
      \/ outcome (checkHistoricRoot t) env = Ok tt
      \/ outcome (verifyProof t) env = Ok tt ->
      o1 = o2).
Proof.
  rewrite checkTransaction_run.
  destruct (outcome (checkTransactionHash t) env) as [[] | e1];
    [| intros [<- | []] [<- | []]; split; [tauto | reflexivity]].
  destruct (outcome (checkTransactionType t) env) as [[] | e2];
    [| intros [<- | []] [<- | []]; split; [tauto | reflexivity]].
  destruct (outcome (checkHistoricRoot t) env) as [[] | e3];
    destruct (outcome (verifyProof t) env) as [[] | e4];
    try (intros [<- | []] [<- | []]; split; [tauto | reflexivity]).
  intros [<- | [<- | []]] [<- | [<- | []]];
    (split; [split; discriminate |]);
    try reflexivity;
    intros [H | [H | [H | H]]]; congruence.
Qed.

Lemma verdict_is_deterministic_witness :
  (Err UnknownTransactionType = Ok tt <-> Err UnknownTransactionType = Ok tt)
  /\ (outcome (checkTransactionHash Samples.unknown) Samples.env_accepting <> Ok tt
      \/ outcome (checkTransactionType Samples.unknown) Samples.env_accepting <> Ok tt
      \/ outcome (checkHistoricRoot Samples.unknown) Samples.env_accepting = Ok tt
      \/ outcome (verifyProof Samples.unknown) Samples.env_accepting = Ok tt ->
      @Err unit UnknownTransactionType = Err UnknownTransactionType).
Proof.
  apply (verdict_is_deterministic Samples.unknown Samples.env_accepting).
  - vm_compute. tauto.
  - vm_compute. tauto.
Defined.

(** C9 as stated fails: for a SINGLE_TRANSFER that refers to a missing
    block and whose proof does not verify, HistoricRootNotFound and
    ProofInvalid can both surface, whichever check rejects first; likewise
    HistoricRootNotFound and the failure to read the chain state. *)
Lemma surfaced_error_depends_on_timing :
  In (Err HistoricRootNotFound)
     (checkTransaction Samples.single_transfer Samples.env_rejecting)
  /\ In (Err ProofInvalid)
        (checkTransaction Samples.single_transfer Samples.env_rejecting)
  /\ HistoricRootNotFound <> ProofInvalid
  /\ checkTransaction Samples.single_transfer Samples.env_offline
     = [Err HistoricRootNotFound; Err (Exception "verification key unavailable")].
Proof.
  split; [| split; [| split]].
  - vm_compute. tauto.
  - vm_compute. tauto.
  - discriminate.
  - vm_compute. reflexivity.
Qed.

(** ** Missing historic roots in the proof path *)

(** C10.  Let a SINGLE_TRANSFER, DOUBLE_TRANSFER or WITHDRAW transaction
    refer to the historic blocks [a] and [b], of which one that its type
    uses is not in the store ([a], or for a DOUBLE_TRANSFER [a] or [b]); let
    the verification key be available, the roots of stored blocks numeric,
    and the transaction's own fields fit for the public inputs.  Then the
    proof path does not fail while it assembles the public inputs: it looks
    up both blocks, and the vector it posts to the verifier is the layout of
    that type with the number of [ZERO] in the place of the root of each
    missing block and the stored root in the place of each block that is
    there.  Its outcome is the verifier's verdict, never
    HistoricRootNotFound; that error is what the historic root check
    returns for the same transaction. *)
Theorem missing_historic_root_becomes_ZERO
        (t : Transaction) (env : Env) (a b : string) (vkArray : list string)
        (b1 b2 : Block) (v0 : list N) :
  In (Number (transactionType t)) [Some 1; Some 2; Some 3] ->
  historicRootBlockNumberL2 t = [a; b] ->
  blocks env a = None
  \/ (Number (transactionType t) = Some 2 /\ blocks env b = None) ->
  verificationKey env (transactionType t) = Some vkArray ->
  (forall k blk, blocks env k = Some blk -> numeric (root blk)) ->
  publicInputsOf t b1 b2 = Ok v0 ->
  exists (v1 v2 : N) (v : list N),
    (blocks env a = None -> generalise ZERO = Some v1)
    /\ (blocks env b = None -> generalise ZERO = Some v2)
    /\ (forall blk, blocks env a = Some blk -> generalise (root blk) = Some v1)
    /\ (forall blk, blocks env b = Some blk -> generalise (root blk) = Some v2)
    /\ laid_out t v1 v2 v
    /\ verifyProof t env
       = ([ GetVerificationKey (transactionType t); GetBlock a; GetBlock b;
            Verify {| vk := vkArray; req_proof := proof t; inputs := v |} ],
          match verifier env
                  {| vk := vkArray; req_proof := proof t; inputs := v |} with
          | Some true => Ok tt
          | Some false => Err ProofInvalid
          | None => Err (Exception "verifier unavailable")
          end)
    /\ outcome (verifyProof t) env <> Err HistoricRootNotFound
    /\ outcome (checkHistoricRoot t) env = Err HistoricRootNotFound.
Proof.
  intros Hty Hh Hmiss Hvk Hroots Hfit.
  assert (Hnum : forall k, exists w,
             generalise (root (nullish (blocks env k) {| root := ZERO |})) = Some w).
  { intros k. destruct (blocks env k) as [blk |] eqn:Ek; cbn [nullish root].
    - specialize (Hroots k blk Ek). unfold numeric in Hroots.
      destruct (generalise (root blk)) as [w |]; [now exists w | congruence].
    - exists 0. apply ZERO_numeric. }
  destruct (Hnum a) as (v1 & Hv1). destruct (Hnum b) as (v2 & Hv2).
  destruct (laid_out_sound t b1 b2 v0 Hty Hfit) as (w1 & w2 & _ & _ & Hlaid).
  destruct (laid_out_roots t w1 w2 v1 v2 v0 Hlaid) as (v & Hv).
  pose proof (laid_out_complete t _ _ v1 v2 v Hv Hv1 (fun _ => Hv2)) as Hrun.
  exists v1, v2, v.
  split; [intros E; now rewrite E in Hv1 |].
  split; [intros E; now rewrite E in Hv2 |].
  split; [intros blk E; now rewrite E in Hv1 |].
  split; [intros blk E; now rewrite E in Hv2 |].
  split; [exact Hv |].
  assert (Hproof : verifyProof t env
       = ([ GetVerificationKey (transactionType t); GetBlock a; GetBlock b;
            Verify {| vk := vkArray; req_proof := proof t; inputs := v |} ],
          match verifier env
                  {| vk := vkArray; req_proof := proof t; inputs := v |} with
          | Some true => Ok tt
          | Some false => Err ProofInvalid
          | None => Err (Exception "verifier unavailable")
          end)).
  { rewrite verifyProof_run, Hvk, Hh. cbn [index nth_error].
    rewrite Hrun. reflexivity. }
  split; [exact Hproof |].
  split.
  - unfold outcome. rewrite Hproof. cbn [snd].
    destruct (verifier env _) as [[|] |]; discriminate.
  - unfold outcome. rewrite checkHistoricRoot_run. cbv zeta.
    rewrite Hh. cbn [index nth_error map].
    destruct Hmiss as [Ha | [Hty2 Hb]].
    + rewrite Ha.
      destruct Hty as [Hty | [Hty | [Hty | []]]]; rewrite <- Hty; reflexivity.
    + rewrite Hty2, Hb. cbn [num_eq N.eqb orb is_null].
      destruct (blocks env a); reflexivity.
Qed.

Lemma missing_historic_root_becomes_ZERO_witness :
  verifyProof Samples.double_transfer Samples.env_accepting
  = ([ GetVerificationKey "2"; GetBlock "7"; GetBlock "8";
       Verify {| vk := ["0x9"];
                 req_proof := ["0x1"; "0x2"];
                 inputs := [1; 1; 2; 4; 171; 6; 10; 0;
                            7; 8; 9; 10; 11; 12; 13; 14] |} ],
     Ok tt)
  /\ outcome (checkHistoricRoot Samples.double_transfer) Samples.env_accepting
     = Err HistoricRootNotFound.
Proof.
  destruct (missing_historic_root_becomes_ZERO
              Samples.double_transfer Samples.env_accepting "7" "8" ["0x9"]
              {| root := ZERO |} {| root := ZERO |}
              [1; 1; 2; 4; 171; 6; 0; 0; 7; 8; 9; 10; 11; 12; 13; 14])
    as (v1 & v2 & v & _ & Hb & Ha & _ & Hv & Hrun & _ & Hroot).
  - vm_compute. tauto.
  - reflexivity.
  - right. split; reflexivity.
  - reflexivity.
  - intros k blk H. unfold Samples.env_accepting, Samples.store in H.
    cbn [blocks] in H. destruct (k === "7"); [| discriminate H].
    injection H as <-. vm_compute. discriminate.
  - vm_compute. reflexivity.
  - split; [| exact Hroot].
    specialize (Ha {| root := "0x0a" |} eq_refl).
    specialize (Hb eq_refl).
    vm_compute in Ha. vm_compute in Hb.
    injection Ha as <-. injection Hb as <-.
    unfold laid_out in Hv.
    change (Number (transactionType Samples.double_transfer)) with (Some 2) in Hv.
    cbv beta iota in Hv.
    destruct Hv as (e & cs & ns & ss & He & Hcs & Hns & Hss & ->).
    vm_compute in He. vm_compute in Hcs. vm_compute in Hns. vm_compute in Hss.
    injection He as <-. injection Hcs as <-. injection Hns as <-.
    injection Hss as <-.
    rewrite Hrun. reflexivity.
Defined.

(** * Further properties *)

(** ** The templates of the type check *)

Lemma strict_neq_false (s z : string) : (s !== z) = false <-> s = z.
Proof. rewrite negb_false_iff. apply strict_eq_true. Qed.

Lemma num_neq_false (x : option N) (k : N) : num_neq x k = false <-> x = Some k.
Proof. unfold num_neq. rewrite negb_false_iff. apply num_eq_true. Qed.

Lemma length_neq_false {A : Type} (l : list A) (n : nat) :
  length_neq l n = false <-> List.length l = n.
Proof. unfold length_neq. rewrite negb_false_iff. apply PeanoNat.Nat.eqb_eq. Qed.

Lemma one_live_slots (l : list string) :
  (index l 0 === ZERO) = false
  /\ (index l 1 !== ZERO) = false
  /\ length_neq l 2 = false
  <-> one_live l.
Proof. apply one_live_nullifier. Qed.

Lemma two_live_slots (l : list string) :
  existsb (fun c : string => c === ZERO) l = false /\ length_neq l 2 = false
  <-> two_live l.
Proof.
  unfold two_live. rewrite length_neq_false. split.
  - intros (Hz & Hlen).
    destruct l as [| x [| y [| z l]]]; try discriminate.
    cbn [existsb] in Hz. rewrite !orb_false_iff, !strict_eq_false in Hz.
    exists x, y. tauto.
  - intros (x & y & -> & Hx & Hy). cbn [existsb].
    rewrite !orb_false_iff, !strict_eq_false. tauto.
Qed.

Lemma not_every_zero (l : list string) :
  forallb (fun p : string => p === ZERO) l = false <-> ~ all_ZERO l.
Proof. rewrite <- not_true_iff_false, every_zero. reflexivity. Qed.

Lemma deposit_condition (t : Transaction) :
  (publicInputHash t === ZERO)
  || (num_neq (Number (tokenType t)) 0
      && (tokenId t === ZERO)
      && num_eq (Number (value t)) 0)
  || (ercAddress t === ZERO)
  || (recipientAddress t !== ZERO)
  || (index (commitments t) 0 === ZERO)
  || (index (commitments t) 1 !== ZERO)
  || length_neq (commitments t) 2
  || existsb (fun n : string => n !== ZERO) (nullifiers t)
  || existsb (fun cs : string => cs !== ZERO) (compressedSecrets t)
  || length_neq (compressedSecrets t) 8
  || forallb (fun p : string => p === ZERO) (proof t)
  || num_neq (Number (index (historicRootBlockNumberL2 t) 0)) 0
  || num_neq (Number (index (historicRootBlockNumberL2 t) 1)) 0 = false
  <-> deposit_template t.
Proof.
  unfold deposit_template.
  rewrite <- one_live_slots.
  rewrite !orb_false_iff, token_condition, !all_zero, not_every_zero,
    !num_neq_false, !length_neq_false, strict_neq_false.
  rewrite !strict_eq_false. unfold all_ZERO. tauto.
Qed.

Lemma single_transfer_condition (t : Transaction) :
  (publicInputHash t === ZERO)
  || (tokenId t !== ZERO)
  || num_neq (Number (value t)) 0
  || (ercAddress t === ZERO)
  || (recipientAddress t !== ZERO)
  || (index (commitments t) 0 === ZERO)
  || (index (commitments t) 1 !== ZERO)
  || length_neq (commitments t) 2
  || (index (nullifiers t) 0 === ZERO)
  || (index (nullifiers t) 1 !== ZERO)
  || length_neq (nullifiers t) 2
  || forallb (fun cs : string => cs === ZERO) (compressedSecrets t)
  || length_neq (compressedSecrets t) 8
  || forallb (fun p : string => p === ZERO) (proof t) = false
  <-> single_transfer_template t.
Proof.
  unfold single_transfer_template.
  rewrite <- !one_live_slots.
  rewrite !orb_false_iff, !not_every_zero, num_neq_false,
    (length_neq_false (compressedSecrets t)), !strict_neq_false.
  rewrite !strict_eq_false. tauto.
Qed.

Lemma double_transfer_condition (t : Transaction) :
  (publicInputHash t === ZERO)
  || (tokenId t !== ZERO)
  || num_neq (Number (value t)) 0
  || (ercAddress t === ZERO)
  || (recipientAddress t !== ZERO)
  || existsb (fun c : string => c === ZERO) (commitments t)
  || length_neq (commitments t) 2
  || existsb (fun n : string => n === ZERO) (nullifiers t)
  || length_neq (nullifiers t) 2
  || forallb (fun cs : string => cs === ZERO) (compressedSecrets t)
  || length_neq (compressedSecrets t) 8
  || forallb (fun p : string => p === ZERO) (proof t) = false
  <-> double_transfer_template t.
Proof.
  unfold double_transfer_template.
  rewrite <- !two_live_slots.
  rewrite !orb_false_iff, !not_every_zero, num_neq_false,
    (length_neq_false (compressedSecrets t)), !strict_neq_false.
  rewrite !strict_eq_false. tauto.
Qed.

Lemma withdraw_condition (t : Transaction) :
  (publicInputHash t === ZERO)
  || (num_neq (Number (tokenType t)) 0
      && (tokenId t === ZERO)
      && num_eq (Number (value t)) 0)
  || (ercAddress t === ZERO)
  || (recipientAddress t === ZERO)
  || existsb (fun c : string => c !== ZERO) (commitments t)
  || (index (nullifiers t) 0 === ZERO)
  || (index (nullifiers t) 1 !== ZERO)
  || length_neq (nullifiers t) 2
  || existsb (fun cs : string => cs !== ZERO) (compressedSecrets t)
  || forallb (fun p : string => p === ZERO) (proof t) = false
  <-> withdraw_tested t.
Proof.
  unfold withdraw_tested.
  rewrite !orb_false_iff, token_condition, all_zero, all_zero,
    <- one_live_nullifier, not_every_zero.
  rewrite !strict_eq_false. unfold all_ZERO. tauto.
Qed.


Ltac decide_template Hcond :=
  match goal with
  | |- context [if ?c then _ else _] =>
      let E := fresh "E" in
      let H := fresh "H" in
      destruct c eqn:E;
      [ split;
        [ split; [discriminate | intros H; apply Hcond in H; congruence]
        | reflexivity ]
      | split;
        [ split; [intros _; apply Hcond; first [exact E | reflexivity]
                 | reflexivity]
        | intros H; exfalso; apply H, Hcond; first [exact E | reflexivity] ] ]
  end.

(** X1.  For a DEPOSIT (type code 0) the type check accepts exactly when:
    the public input hash and the ERC address are not [ZERO], the token rule
    holds, the recipient address is [ZERO], the commitments are one value
    that is not [ZERO] followed by [ZERO], every nullifier is [ZERO] (their
    number is not tested), there are eight compressed secrets and all are
    [ZERO], the proof is not all [ZERO], and both historic block numbers
    convert to 0.  Otherwise it throws the TypeInconsistent error that names
    DEPOSIT. *)
Theorem deposit_check (t : Transaction) (env : Env) :
  Number (transactionType t) = Some 0 ->
  (outcome (checkTransactionType t) env = Ok tt <-> deposit_template t)
  /\ (~ deposit_template t ->
      outcome (checkTransactionType t) env = Err (TypeInconsistent "DEPOSIT")).
Proof.
  intros Hty. unfold checkTransactionType. rewrite Hty. cbv beta iota.
  rewrite outcome_if.
  pose proof (deposit_condition t) as Hcond.
  decide_template Hcond.
Qed.

Lemma deposit_check_witness :
  outcome (checkTransactionType Samples.deposit) Samples.env_accepting = Ok tt
  <-> deposit_template Samples.deposit.
Proof.
  exact (proj1 (deposit_check Samples.deposit Samples.env_accepting eq_refl)).
Defined.

(** X2.  For a SINGLE_TRANSFER (type code 1) the type check accepts exactly
    when: the public input hash and the ERC address are not [ZERO], the token
    id is [ZERO] and the value converts to 0, the recipient address is
    [ZERO], commitments and nullifiers are each one value that is not [ZERO]
    followed by [ZERO], there are eight compressed secrets, not all [ZERO],
    and the proof is not all [ZERO].  The token type and the historic block
    numbers are not looked at.  Otherwise it throws the TypeInconsistent
    error that names SINGLE_TRANSFER. *)
Theorem single_transfer_check (t : Transaction) (env : Env) :
  Number (transactionType t) = Some 1 ->
  (outcome (checkTransactionType t) env = Ok tt <-> single_transfer_template t)
  /\ (~ single_transfer_template t ->
      outcome (checkTransactionType t) env
      = Err (TypeInconsistent "SINGLE_TRANSFER")).
Proof.
  intros Hty. unfold checkTransactionType. rewrite Hty. cbv beta iota.
  rewrite outcome_if.
  pose proof (single_transfer_condition t) as Hcond.
  decide_template Hcond.
Qed.

Lemma single_transfer_check_witness :
  outcome (checkTransactionType Samples.single_transfer) Samples.env_accepting
  = Ok tt
  <-> single_transfer_template Samples.single_transfer.
Proof.
  exact (proj1 (single_transfer_check Samples.single_transfer
                                      Samples.env_accepting eq_refl)).
Defined.

(** X3.  For a DOUBLE_TRANSFER (type code 2) the type check accepts exactly
    when: the public input hash and the ERC address are not [ZERO], the token
    id is [ZERO] and the value converts to 0, the recipient address is
    [ZERO], there are exactly two commitments and two nullifiers, none of
    them [ZERO], eight compressed secrets, not all [ZERO], and the proof is
    not all [ZERO].  Otherwise it throws the TypeInconsistent error that
    names DOUBLE_TRANSFER. *)
Theorem double_transfer_check (t : Transaction) (env : Env) :
  Number (transactionType t) = Some 2 ->
  (outcome (checkTransactionType t) env = Ok tt <-> double_transfer_template t)
  /\ (~ double_transfer_template t ->
      outcome (checkTransactionType t) env
      = Err (TypeInconsistent "DOUBLE_TRANSFER")).
Proof.
  intros Hty. unfold checkTransactionType. rewrite Hty. cbv beta iota.
  rewrite outcome_if.
  pose proof (double_transfer_condition t) as Hcond.
  decide_template Hcond.
Qed.

Lemma double_transfer_check_witness :
  outcome (checkTransactionType Samples.double_transfer) Samples.env_accepting
  = Ok tt
  <-> double_transfer_template Samples.double_transfer.
Proof.
  exact (proj1 (double_transfer_check Samples.double_transfer
                                      Samples.env_accepting eq_refl)).
Defined.

(** The type check accepts exactly the transactions that fit the template
    of their type code. *)
Lemma checkTransactionType_accepts (t : Transaction) (env : Env) :
  outcome (checkTransactionType t) env = Ok tt <->
  (Number (transactionType t) = Some 0 /\ deposit_template t)
  \/ (Number (transactionType t) = Some 1 /\ single_transfer_template t)
  \/ (Number (transactionType t) = Some 2 /\ double_transfer_template t)
  \/ (Number (transactionType t) = Some 3 /\ withdraw_tested t).
Proof.
  rewrite <- deposit_condition, <- single_transfer_condition,
    <- double_transfer_condition, <- withdraw_condition.
  unfold checkTransactionType.
  destruct (Number (transactionType t)) as [[| [[p | p |] | [p | p |] |]] |];
    try rewrite outcome_if;
    try (split; [discriminate | intros [[H _] | [[H _] | [[H _] | [H _]]]]; discriminate H]).
  - match goal with |- context [if ?c then _ else _] => destruct c end.
    + split; [discriminate | intros [[_ H] | [[H _] | [[H _] | [H _]]]]; discriminate H].
    + split; [tauto | reflexivity].
  - match goal with |- context [if ?c then _ else _] => destruct c end.
    + split; [discriminate | intros [[H _] | [[H _] | [[H _] | [_ H]]]]; discriminate H].
    + split; [tauto | reflexivity].
  - match goal with |- context [if ?c then _ else _] => destruct c end.
    + split; [discriminate | intros [[H _] | [[H _] | [[_ H] | [H _]]]]; discriminate H].
    + split; [tauto | reflexivity].
  - match goal with |- context [if ?c then _ else _] => destruct c end.
    + split; [discriminate | intros [[H _] | [[_ H] | [[H _] | [H _]]]]; discriminate H].
    + split; [tauto | reflexivity].
Qed.

Lemma one_live_not_all_ZERO (l : list string) : one_live l -> ~ all_ZERO l.
Proof.
  intros (x & -> & Hx) H. inversion H as [| ? ? Hx' _]. now apply Hx.
Qed.

Lemma two_live_not_all_ZERO (l : list string) : two_live l -> ~ all_ZERO l.
Proof.
  intros (x & y & -> & Hx & _) H. inversion H as [| ? ? Hx' _]. now apply Hx.
Qed.

(** X4.  Every transaction that the type check accepts has a public input
    hash and an ERC address that are not [ZERO] and a proof that is not all
    [ZERO]; and its fields tell its type: the recipient address is set
    exactly for WITHDRAW, the commitments are all [ZERO] exactly for
    WITHDRAW, the nullifiers are all [ZERO] exactly for DEPOSIT, and some
    compressed secret is set exactly for the two transfers. *)
Theorem accepted_fields_tell_the_type (t : Transaction) (env : Env) :
  outcome (checkTransactionType t) env = Ok tt ->
  publicInputHash t <> ZERO
  /\ ercAddress t <> ZERO
  /\ ~ all_ZERO (proof t)
  /\ (recipientAddress t <> ZERO <-> Number (transactionType t) = Some 3)
  /\ (all_ZERO (commitments t) <-> Number (transactionType t) = Some 3)
  /\ (all_ZERO (nullifiers t) <-> Number (transactionType t) = Some 0)
  /\ (~ all_ZERO (compressedSecrets t)
      <-> Number (transactionType t) = Some 1
          \/ Number (transactionType t) = Some 2).
Proof.
  intros Hok. apply checkTransactionType_accepts in Hok.
  destruct Hok as [[Hty H] | [[Hty H] | [[Hty H] | [Hty H]]]]; rewrite Hty.
  - destruct H as (Hp & _ & He & Hr & Hc & Hn & Hs & _ & Hpr & _).
    apply one_live_not_all_ZERO in Hc.
    repeat apply conj; try assumption; try tauto; try congruence;
      try (intros H; exfalso; tauto); try (intros [H | H]; discriminate H).
  - destruct H as (Hp & _ & _ & He & Hr & Hc & Hn & Hs & _ & Hpr).
    apply one_live_not_all_ZERO in Hc. apply one_live_not_all_ZERO in Hn.
    repeat apply conj; try assumption; try tauto; try congruence;
      try (intros H; exfalso; tauto).
  - destruct H as (Hp & _ & _ & He & Hr & Hc & Hn & Hs & _ & Hpr).
    apply two_live_not_all_ZERO in Hc. apply two_live_not_all_ZERO in Hn.
    repeat apply conj; try assumption; try tauto; try congruence;
      try (intros H; exfalso; tauto).
  - destruct H as (Hp & _ & He & Hr & Hc & Hn & Hs & Hpr).
    fold (one_live (nullifiers t)) in Hn. apply one_live_not_all_ZERO in Hn.
    repeat apply conj; try assumption; try tauto; try congruence;
      try (intros H; exfalso; tauto); try (intros [H | H]; discriminate H).
Qed.

Lemma accepted_fields_tell_the_type_witness :
  recipientAddress Samples.withdraw <> ZERO
  <-> Number (transactionType Samples.withdraw) = Some 3.
Proof.
  refine (proj1 (proj2 (proj2 (proj2
    (accepted_fields_tell_the_type Samples.withdraw Samples.env_accepting _))))).
  vm_compute. reflexivity.
Defined.
(** ** Public inputs of the other types *)

(** X5.  For a SINGLE_TRANSFER (type code 1) with numeric fields the public
    inputs are, in this order: the ERC address, commitments[0], nullifiers[0]
    cut down to 31 bytes, the root of the first historic block, and every
    compressed secret cut down to 31 bytes.  The second historic block does
    not enter. *)
Theorem single_transfer_public_inputs (t : Transaction) (r1 r2 : Block)
        (e c0 n0 v1 : N) (ss : list N) :
  Number (transactionType t) = Some 1 ->
  generalise (ercAddress t) = Some e ->
  generalise (index (commitments t) 0) = Some c0 ->
  generalise (index (nullifiers t) 0) = Some n0 ->
  generalise (root r1) = Some v1 ->
  numbers (compressedSecrets t) = Some ss ->
  publicInputsOf t r1 r2
  = Ok ([e; c0; truncate31 n0; v1] ++ map truncate31 ss).
Proof. apply single_transfer_inputs. Qed.

Lemma single_transfer_public_inputs_witness :
  publicInputsOf Samples.single_transfer {| root := "0x0a" |} {| root := ZERO |}
  = Ok [1; 2; 171; 10; 7; 0; 0; 0; 0; 0; 0; 0].
Proof.
  exact (single_transfer_public_inputs
           Samples.single_transfer {| root := "0x0a" |} {| root := ZERO |}
           1 2 (255 * 256 ^ 31 + 171) 10 [7; 0; 0; 0; 0; 0; 0; 0]
           eq_refl eq_refl eq_refl eq_refl eq_refl eq_refl).
Defined.

(** X6.  For a WITHDRAW (type code 3) with numeric fields the public inputs
    are exactly six values, in this order: the ERC address, the token id,
    the value, nullifiers[0] cut down to 31 bytes, the recipient address and
    the root of the first historic block. *)
Theorem withdraw_public_inputs (t : Transaction) (r1 r2 : Block)
        (e i a n0 rc v1 : N) :
  Number (transactionType t) = Some 3 ->
  generalise (ercAddress t) = Some e ->
  generalise (tokenId t) = Some i ->
  generalise (value t) = Some a ->
  generalise (index (nullifiers t) 0) = Some n0 ->
  generalise (recipientAddress t) = Some rc ->
  generalise (root r1) = Some v1 ->
  publicInputsOf t r1 r2 = Ok [e; i; a; truncate31 n0; rc; v1].
Proof. apply withdraw_inputs. Qed.

Lemma withdraw_public_inputs_witness :
  publicInputsOf Samples.withdraw {| root := "0x0a" |} {| root := ZERO |}
  = Ok [1; 3; 0; 6; 5; 10].
Proof.
  exact (withdraw_public_inputs
           Samples.withdraw {| root := "0x0a" |} {| root := ZERO |}
           1 3 0 6 5 10 eq_refl eq_refl eq_refl eq_refl eq_refl eq_refl eq_refl).
Defined.

Lemma traverse_length {A B : Type} (f : A -> option B) (l : list A) (vs : list B) :
  traverse f l = Some vs -> List.length vs = List.length l.
Proof.
  revert vs. induction l as [| a l IH]; intros vs H; cbn [traverse] in H.
  - injection H as <-. reflexivity.
  - destruct (f a); [| discriminate]. destruct (traverse f l) as [bs |]; [| discriminate].
    injection H as <-. cbn [List.length]. now rewrite (IH bs).
Qed.

Lemma new_PublicInputs_length (elements : list nested) (v : list N) :
  new_PublicInputs elements = Ok v ->
  List.length v = List.length (flat_map flat elements).
Proof.
  unfold new_PublicInputs, PublicInputs.
  destruct (traverse generalise _) as [vs |] eqn:E; [| discriminate].
  intros H. injection H as <-. now apply traverse_length in E.
Qed.

(** X7.  When the type check accepts a transaction and its public inputs
    can be assembled, the vector has 4 entries for a DEPOSIT, 12 for a
    SINGLE_TRANSFER, 16 for a DOUBLE_TRANSFER and 6 for a WITHDRAW. *)
Theorem accepted_inputs_length (t : Transaction) (env : Env) (r1 r2 : Block)
        (v : list N) :
  outcome (checkTransactionType t) env = Ok tt ->
  publicInputsOf t r1 r2 = Ok v ->
  List.length v =
  match Number (transactionType t) with
  | Some 0 => 4%nat
  | Some 1 => 12%nat
  | Some 2 => 16%nat
  | _ => 6%nat
  end.
Proof.
  intros Hok. apply checkTransactionType_accepts in Hok.
  unfold publicInputsOf.
  destruct Hok as [[Hty H] | [[Hty H] | [[Hty H] | [Hty H]]]]; rewrite Hty;
    cbv beta iota.
  - intros Hv. now apply new_PublicInputs_length in Hv.
  - destruct H as (_ & _ & _ & _ & _ & _ & _ & _ & Hlen & _).
    destruct (generalise_hex_32_31 _); [| discriminate].
    destruct (traverse _ (compressedSecrets t)) as [ss |] eqn:Es; [| discriminate].
    apply traverse_length in Es.
    intros Hv. apply new_PublicInputs_length in Hv. rewrite Hv.
    rewrite flat_map_app. unfold spread. rewrite flat_leaves.
    cbn [flat_map flat app List.length]. rewrite length_map. lia.
  - destruct H as (_ & _ & _ & _ & _ & (c0 & c1 & Hc & _) & (n0 & n1 & Hn & _)
                   & _ & Hlen & _).
    destruct (traverse _ (nullifiers t)) as [ns |] eqn:En; [| discriminate].
    destruct (traverse _ (compressedSecrets t)) as [ss |] eqn:Es; [| discriminate].
    apply traverse_length in Es. apply traverse_length in En.
    intros Hv. apply new_PublicInputs_length in Hv. rewrite Hv.
    rewrite flat_map_app. unfold spread. rewrite flat_leaves.
    cbn [flat_map flat app]. rewrite !flat_leaves.
    assert (Hlc : List.length (commitments t) = 2%nat) by now rewrite Hc.
    assert (Hln : List.length (nullifiers t) = 2%nat) by now rewrite Hn.
    repeat (rewrite ?length_app, ?length_map; cbn [List.length]). lia.
  - destruct (generalise_hex_32_31 _); [| discriminate].
    intros Hv. now apply new_PublicInputs_length in Hv.
Qed.

Lemma accepted_inputs_length_witness :
  List.length [1; 1; 2; 4; 171; 6; 10; 0; 7; 8; 9; 10; 11; 12; 13; 14] = 16%nat.
Proof.
  refine (accepted_inputs_length Samples.double_transfer Samples.env_accepting
            {| root := "0x0a" |} {| root := ZERO |} _ _ _).
  - vm_compute. reflexivity.
  - vm_compute. reflexivity.
Defined.

(** The two verdicts of [verifyProof]. *)
Lemma verifyProof_outcomes (t : Transaction) (env : Env) :
  let first := nullish (blocks env (index (historicRootBlockNumberL2 t) 0))
                       {| root := ZERO |} in
  let second := nullish (blocks env (index (historicRootBlockNumberL2 t) 1))
                        {| root := ZERO |} in
  (outcome (verifyProof t) env = Ok tt <->
   exists vkArray v,
     verificationKey env (transactionType t) = Some vkArray
     /\ publicInputsOf t first second = Ok v
     /\ verifier env {| vk := vkArray; req_proof := proof t; inputs := v |}
        = Some true)
  /\ (outcome (verifyProof t) env = Err ProofInvalid <->
      exists vkArray v,
        verificationKey env (transactionType t) = Some vkArray
        /\ publicInputsOf t first second = Ok v
        /\ verifier env {| vk := vkArray; req_proof := proof t; inputs := v |}
           = Some false).
Proof.
  cbv zeta. unfold outcome. rewrite verifyProof_run.
  destruct (verificationKey env (transactionType t)) as [vkArray |].
  2: { cbn [snd]. split; (split; [discriminate | intros (? & ? & H & _); discriminate H]). }
  destruct (publicInputsOf t _ _) as [v | e] eqn:Ev.
  2: { cbn [snd]. split; split;
       try (intros (? & ? & _ & H & _); discriminate H); try discriminate.
       intros He. injection He as ->. revert Ev. unfold publicInputsOf, new_PublicInputs.
       destruct (Number (transactionType t)) as [[| [[p | p |] | [p | p |] |]] |];
         repeat match goal with
                | |- context [match ?x with _ => _ end] => destruct x
                end; discriminate. }
  cbv zeta. cbn [snd].
  destruct (verifier env _) as [[|] |] eqn:Ever; split; split;
    try discriminate; try reflexivity;
    try (intros _; exists vkArray, v; repeat split; assumption);
    intros (vk' & v' & Hk & Hv' & Hans);
    injection Hk as <-; injection Hv' as <-; congruence.
Qed.

(** X8.  [verifyProof] succeeds exactly when the verification key is
    served, the public inputs can be assembled and the verifier answers
    [verifies = true] to the request made of that key, the transaction's
    proof and those inputs; it fails with ProofInvalid (code 5) exactly when
    the verifier answers [false] to that request. *)
Theorem verifyProof_verdict (t : Transaction) (env : Env) :
  let first := nullish (blocks env (index (historicRootBlockNumberL2 t) 0))
                       {| root := ZERO |} in
  let second := nullish (blocks env (index (historicRootBlockNumberL2 t) 1))
                        {| root := ZERO |} in
  (outcome (verifyProof t) env = Ok tt <->
   exists vkArray v,
     verificationKey env (transactionType t) = Some vkArray
     /\ publicInputsOf t first second = Ok v
     /\ verifier env {| vk := vkArray; req_proof := proof t; inputs := v |}
        = Some true)
  /\ (outcome (verifyProof t) env = Err ProofInvalid <->
      exists vkArray v,
        verificationKey env (transactionType t) = Some vkArray
        /\ publicInputsOf t first second = Ok v
        /\ verifier env {| vk := vkArray; req_proof := proof t; inputs := v |}
           = Some false).
Proof. exact (verifyProof_outcomes t env). Qed.
(** ** The proof path *)

(** X9.  Whenever [verifyProof] calls the verifier, it does so once, after
    the key and both block lookups, and the request holds the served key,
    the transaction's own proof and the inputs assembled from the looked-up
    blocks: nothing else is ever posted. *)
Theorem verifier_sees_only_assembled_inputs (t : Transaction) (env : Env)
        (req : request) :
  In (Verify req) (trace (verifyProof t) env) ->
  let h0 := index (historicRootBlockNumberL2 t) 0 in
  let h1 := index (historicRootBlockNumberL2 t) 1 in
  trace (verifyProof t) env
  = [GetVerificationKey (transactionType t); GetBlock h0; GetBlock h1; Verify req]
  /\ verificationKey env (transactionType t) = Some (vk req)
  /\ req_proof req = proof t
  /\ publicInputsOf t (nullish (blocks env h0) {| root := ZERO |})
                      (nullish (blocks env h1) {| root := ZERO |})
     = Ok (inputs req).
Proof.
  cbv zeta. unfold trace. rewrite verifyProof_run.
  destruct (verificationKey env (transactionType t)) as [vkArray |].
  2: { cbn [fst In]. intros [H | []]. discriminate H. }
  destruct (publicInputsOf t _ _) as [v | e].
  2: { cbn [fst In]. intros [H | [H | [H | []]]]; discriminate H. }
  cbv zeta. cbn [fst In].
  intros [H | [H | [H | [H | []]]]]; try discriminate H.
  injection H as <-. repeat split.
Qed.

Lemma verifier_sees_only_assembled_inputs_witness :
  publicInputsOf Samples.single_transfer
    (nullish (blocks Samples.env_accepting
                (index (historicRootBlockNumberL2 Samples.single_transfer) 0))
             {| root := ZERO |})
    (nullish (blocks Samples.env_accepting
                (index (historicRootBlockNumberL2 Samples.single_transfer) 1))
             {| root := ZERO |})
  = Ok [1; 2; 171; 10; 7; 0; 0; 0; 0; 0; 0; 0].
Proof.
  refine (proj2 (proj2 (proj2
    (verifier_sees_only_assembled_inputs
       Samples.single_transfer Samples.env_accepting
       {| vk := ["0x9"]; req_proof := ["0x1"; "0x2"];
          inputs := [1; 2; 171; 10; 7; 0; 0; 0; 0; 0; 0; 0] |} _)))).
  vm_compute. tauto.
Defined.

(** X10.  The proof path of a DEPOSIT does not depend on what the block
    store holds, and that of a SINGLE_TRANSFER or WITHDRAW depends on it
    only through the first historic block: two environments that serve the
    same key and verifier answers (and, for these two types, the same first
    block) give the same calls and the same outcome. *)
Theorem unused_blocks_do_not_matter (t : Transaction) (env env' : Env) :
  Number (transactionType t) = Some 0
  \/ ((Number (transactionType t) = Some 1 \/ Number (transactionType t) = Some 3)
      /\ blocks env (index (historicRootBlockNumberL2 t) 0)
         = blocks env' (index (historicRootBlockNumberL2 t) 0)) ->
  verificationKey env (transactionType t) = verificationKey env' (transactionType t) ->
  (forall req, verifier env req = verifier env' req) ->
  verifyProof t env = verifyProof t env'.
Proof.
  intros Hty Hk Hv. rewrite !verifyProof_run, <- Hk.
  destruct (verificationKey env (transactionType t)) as [vkArray |];
    [| reflexivity].
  assert (Hin : forall r1 r2 r1' r2',
             (Number (transactionType t) = Some 0 \/ root r1 = root r1') ->
             Number (transactionType t) = Some 0
             \/ Number (transactionType t) = Some 1
             \/ Number (transactionType t) = Some 3 ->
             publicInputsOf t r1 r2 = publicInputsOf t r1' r2').
  { intros r1 r2 r1' r2' Hr Hc. unfold publicInputsOf.
    destruct Hc as [H | [H | H]]; rewrite H; cbv beta iota;
      destruct Hr as [Hr | Hr]; try congruence; try reflexivity;
      now rewrite Hr. }
  rewrite (Hin _ _ (nullish (blocks env' (index (historicRootBlockNumberL2 t) 0))
                            {| root := ZERO |})
               (nullish (blocks env' (index (historicRootBlockNumberL2 t) 1))
                        {| root := ZERO |})).
  - destruct (publicInputsOf t _ _); [| reflexivity].
    cbv zeta. now rewrite Hv.
  - destruct Hty as [H | [_ H]]; [now left | right; now rewrite H].
  - tauto.
Qed.

Lemma unused_blocks_do_not_matter_witness :
  verifyProof Samples.deposit Samples.env_accepting
  = verifyProof Samples.deposit MoreSamples.env_empty_store.
Proof.
  apply unused_blocks_do_not_matter.
  - left. reflexivity.
  - reflexivity.
  - intros req. reflexivity.
Defined.

Lemma hex_of_truncation (v v' : N) :
  truncate31 v = truncate31 v' -> hex 32 31 v = hex 32 31 v'.
Proof.
  unfold truncate31, hex. change (N.of_nat 31) with 31. now intros ->.
Qed.

(** X11.  The public inputs of a SINGLE_TRANSFER or WITHDRAW do not bind
    the top byte of the nullifier: replacing nullifiers[0] by a value with
    the same 31 low-order bytes leaves the public inputs unchanged. *)
Theorem top_byte_of_nullifier_is_not_bound (t : Transaction) (r1 r2 : Block)
        (n n' : string) (rest : list string) (v v' : N) :
  Number (transactionType t) = Some 1 \/ Number (transactionType t) = Some 3 ->
  nullifiers t = n :: rest ->
  generalise n = Some v ->
  generalise n' = Some v' ->
  truncate31 v = truncate31 v' ->
  publicInputsOf (with_nullifiers t (n' :: rest)) r1 r2 = publicInputsOf t r1 r2.
Proof.
  intros Hty Hn Hv Hv' Htr. unfold publicInputsOf.
  cbn [with_nullifiers transactionType tokenType value publicInputHash tokenId
       ercAddress recipientAddress commitments nullifiers compressedSecrets
       proof historicRootBlockNumberL2].
  destruct Hty as [Hty | Hty]; rewrite Hty; cbv beta iota;
    rewrite Hn; cbn [index nth_error];
    rewrite (hex_of_number _ _ Hv), (hex_of_number _ _ Hv'),
      (hex_of_truncation _ _ Htr);
    reflexivity.
Qed.

Lemma top_byte_of_nullifier_is_not_bound_witness :
  publicInputsOf
    (with_nullifiers Samples.withdraw [MoreSamples.nullifier_6_hi; ZERO])
    {| root := "0x0a" |} {| root := ZERO |}
  = publicInputsOf Samples.withdraw {| root := "0x0a" |} {| root := ZERO |}.
Proof.
  apply (top_byte_of_nullifier_is_not_bound
           Samples.withdraw _ _ "0x6" MoreSamples.nullifier_6_hi [ZERO]
           6 (255 * 256 ^ 31 + 6)).
  - right. reflexivity.
  - reflexivity.
  - reflexivity.
  - vm_compute. reflexivity.
  - vm_compute. reflexivity.
Defined.

(** ** The orchestrator and the historic root check *)

(** X12.  A hash mismatch is what [checkTransaction] reports whatever else
    is wrong with the transaction; when the hash matches, an error of the
    type check is what it reports; and the type check only ever throws
    UnknownTransactionType or a TypeInconsistent error. *)
Theorem hash_and_type_errors_come_first (t : Transaction) (env : Env) :
  (Transaction_checkHash env t = false ->
   checkTransaction t env = [Err HashMismatch])
  /\ (Transaction_checkHash env t = true ->
      forall e, outcome (checkTransactionType t) env = Err e ->
                checkTransaction t env = [Err e])
  /\ (forall e, outcome (checkTransactionType t) env = Err e ->
                e = UnknownTransactionType
                \/ exists name, e = TypeInconsistent name).
Proof.
  rewrite checkTransaction_run, checkTransactionHash_outcome.
  split; [| split].
  - now intros ->.
  - intros -> e ->. reflexivity.
  - intros e. unfold checkTransactionType.
    destruct (Number (transactionType t)) as [[| [[p | p |] | [p | p |] |]] |];
      try rewrite outcome_if;
      try (intros H; injection H as <-; now left);
      match goal with |- context [if ?c then _ else _] => destruct c end;
      try discriminate; intros H; injection H as <-; right.
    + now exists "DEPOSIT".
    + now exists "WITHDRAW".
    + now exists "DOUBLE_TRANSFER".
    + now exists "SINGLE_TRANSFER".
Qed.

Lemma checkHistoricRoot_first_exists (t : Transaction) (env : Env) :
  Number (transactionType t) = Some 1 \/ Number (transactionType t) = Some 3 ->
  outcome (checkHistoricRoot t) env = Ok tt ->
  exists b, blocks env (index (historicRootBlockNumberL2 t) 0) = Some b.
Proof.
  intros Hty. unfold outcome. rewrite checkHistoricRoot_run. cbv zeta.
  destruct Hty as [-> | ->]; cbn [num_eq N.eqb Pos.eqb orb snd];
    (destruct (blocks env _) as [b |]; [now exists b | discriminate]).
Qed.

(** X13.  When [checkTransaction] accepts a SINGLE_TRANSFER or a WITHDRAW,
    the first historic block is in the store and the verifier said yes to
    inputs assembled with that block's own root: the [ZERO] stand-in of the
    proof path is never what an accepted transaction was verified
    against. *)
Theorem accepted_transfer_used_a_stored_root (t : Transaction) (env : Env) :
  Number (transactionType t) = Some 1 \/ Number (transactionType t) = Some 3 ->
  In (Ok tt) (checkTransaction t env) ->
  exists b vkArray v,
    blocks env (index (historicRootBlockNumberL2 t) 0) = Some b
    /\ verificationKey env (transactionType t) = Some vkArray
    /\ publicInputsOf t b
         (nullish (blocks env (index (historicRootBlockNumberL2 t) 1))
                  {| root := ZERO |}) = Ok v
    /\ verifier env {| vk := vkArray; req_proof := proof t; inputs := v |}
       = Some true.
Proof.
  intros Hty Hin. rewrite checkTransaction_run in Hin.
  destruct (outcome (checkTransactionHash t) env) as [[] | ?];
    [| destruct Hin as [H | []]; discriminate H].
  destruct (outcome (checkTransactionType t) env) as [[] | ?];
    [| destruct Hin as [H | []]; discriminate H].
  destruct (outcome (checkHistoricRoot t) env) as [[] | ?] eqn:Eh.
  2: { destruct (outcome (verifyProof t) env) as [[] | ?];
       simpl in Hin; intuition discriminate. }
  destruct (outcome (verifyProof t) env) as [[] | ?] eqn:Ev;
    [| destruct Hin as [H | []]; discriminate H].
  destruct (checkHistoricRoot_first_exists t env Hty Eh) as (b & Hb).
  apply (proj1 (verifyProof_outcomes t env)) in Ev.
  destruct Ev as (vkArray & v & Hk & Hv & Hans).
  rewrite Hb in Hv. cbn [nullish] in Hv.
  now exists b, vkArray, v.
Qed.

Lemma accepted_transfer_used_a_stored_root_witness :
  exists b vkArray v,
    blocks Samples.env_accepting
           (index (historicRootBlockNumberL2 Samples.single_transfer) 0) = Some b
    /\ verificationKey Samples.env_accepting
                       (transactionType Samples.single_transfer) = Some vkArray
    /\ publicInputsOf Samples.single_transfer b
         (nullish (blocks Samples.env_accepting
                     (index (historicRootBlockNumberL2 Samples.single_transfer) 1))
                  {| root := ZERO |}) = Ok v
    /\ verifier Samples.env_accepting
                {| vk := vkArray; req_proof := proof Samples.single_transfer;
                   inputs := v |}
       = Some true.
Proof.
  apply accepted_transfer_used_a_stored_root.
  - left. reflexivity.
  - vm_compute. tauto.
Defined.

(** X14.  The historic root check on arrays of any length.  For
    SINGLE_TRANSFER and WITHDRAW it makes exactly one lookup, of element 0
    ([undefined] when the array is empty), and fails exactly when the answer
    is null.  For DOUBLE_TRANSFER it looks up every element of the array
    but fails only when element 0 or element 1 is present and its lookup
    answers null: a missing slot is not an error, and with an empty array
    the check passes without any lookup. *)
Theorem historic_root_check_tests_present_slots (t : Transaction) (env : Env) :
  let h := historicRootBlockNumberL2 t in
  (Number (transactionType t) = Some 1 \/ Number (transactionType t) = Some 3 ->
   trace (checkHistoricRoot t) env = [GetBlock (index h 0)]
   /\ (outcome (checkHistoricRoot t) env = Err HistoricRootNotFound
       <-> blocks env (index h 0) = None))
  /\ (Number (transactionType t) = Some 2 ->
      trace (checkHistoricRoot t) env = map (fun k : string => GetBlock k) h
      /\ (outcome (checkHistoricRoot t) env = Err HistoricRootNotFound
          <-> (exists a, nth_error h 0 = Some a /\ blocks env a = None)
              \/ (exists b, nth_error h 1 = Some b /\ blocks env b = None))
      /\ (h = [] -> outcome (checkHistoricRoot t) env = Ok tt)).
Proof.
  cbv zeta. unfold trace, outcome. rewrite checkHistoricRoot_run. cbv zeta.
  split.
  - intros [-> | ->]; cbn [num_eq N.eqb Pos.eqb orb fst snd];
      (split; [reflexivity |]);
      destruct (blocks env _); split; congruence.
  - intros ->. cbn [num_eq N.eqb Pos.eqb orb fst snd].
    split; [reflexivity |]. split.
    + destruct (historicRootBlockNumberL2 t) as [| a [| b l]];
        cbn [map nth_error is_null orb].
      * split; [discriminate | intros [(? & H & _) | (? & H & _)]; discriminate H].
      * destruct (blocks env a) eqn:Ea; cbn [orb]; split;
          try discriminate; try reflexivity.
        -- intros [(a' & H & H') | (? & H & _)]; [| discriminate H].
           injection H as <-. congruence.
        -- intros _. left. now exists a.
      * destruct (blocks env a) eqn:Ea, (blocks env b) eqn:Eb; cbn [orb]; split;
          try discriminate; try reflexivity;
          try (intros _; left; now exists a);
          try (intros _; right; now exists b).
        intros [(a' & H & H') | (b' & H & H')]; injection H as <-; congruence.
    + intros ->. reflexivity.
Qed.
(** ** Contract administration *)

Import Admin.

Section TokenLoops.

Variable env : AdminEnv.
Variable shield : contract.
Variables tokenName signingKey executorAddress : string.

Lemma setTokenRestrictions_loop_skips (pre rest : list token) (d w : string) :
  Forall (fun tok => name tok <> tokenName) pre ->
  setTokenRestrictions_loop shield (pre ++ rest) tokenName d w
                            signingKey executorAddress env
  = setTokenRestrictions_loop shield rest tokenName d w
                              signingKey executorAddress env.
Proof.
  induction 1 as [| tok pre Hne _ IH]; [reflexivity |].
  cbn [app setTokenRestrictions_loop].
  apply String.eqb_neq in Hne. now rewrite Hne.
Qed.

Lemma removeTokenRestrictions_loop_skips (pre rest : list token) :
  Forall (fun tok => name tok <> tokenName) pre ->
  removeTokenRestrictions_loop shield (pre ++ rest) tokenName
                               signingKey executorAddress env
  = removeTokenRestrictions_loop shield rest tokenName
                                 signingKey executorAddress env.
Proof.
  induction 1 as [| tok pre Hne _ IH]; [reflexivity |].
  cbn [app removeTokenRestrictions_loop].
  apply String.eqb_neq in Hne. now rewrite Hne.
Qed.

End TokenLoops.

(** X15.  When no configured token has the given name,
    [setTokenRestrictions] and [removeTokenRestrictions] return [false]
    after awaiting the Shield contract only: no signature is asked for.  (If
    the contract cannot be reached they fail before the token list is
    read.) *)
Theorem restricting_an_unlisted_token_returns_false
        (env : AdminEnv) (tokenName d w signingKey executorAddress : string) :
  Forall (fun tok => name tok <> tokenName) (tokens env) ->
  let awaited_shield :=
    ([WaitForContract (SHIELD_CONTRACT_NAME env)],
     match waitFor env (SHIELD_CONTRACT_NAME env) with
     | Some _ => Ok ReturnedFalse
     | None => Err (Exception "contract unavailable")
     end) in
  setTokenRestrictions tokenName d w signingKey executorAddress env
  = awaited_shield
  /\ removeTokenRestrictions tokenName signingKey executorAddress env
     = awaited_shield.
Proof.
  intros Hnone. cbv zeta.
  unfold setTokenRestrictions, removeTokenRestrictions, abind, waitForContract.
  destruct (waitFor env (SHIELD_CONTRACT_NAME env)) as [shield |];
    [| split; reflexivity].
  rewrite <- (app_nil_r (tokens env)).
  rewrite setTokenRestrictions_loop_skips, removeTokenRestrictions_loop_skips
    by exact Hnone.
  split; reflexivity.
Qed.

Lemma restricting_an_unlisted_token_returns_false_witness :
  setTokenRestrictions "DAI" "10" "20" "0xkey" "0xexec" MoreSamples.admin_env
  = ([WaitForContract "Shield"], Ok ReturnedFalse)
  /\ removeTokenRestrictions "DAI" "0xkey" "0xexec" MoreSamples.admin_env
     = ([WaitForContract "Shield"], Ok ReturnedFalse).
Proof.
  apply (restricting_an_unlisted_token_returns_false
           MoreSamples.admin_env "DAI" "10" "20" "0xkey" "0xexec").
  repeat constructor; discriminate.
Defined.

(** X16.  [setTokenRestrictions] and [removeTokenRestrictions] act on the
    first configured token with the given name and stop there: one signature
    is asked for, over the call that carries that token's address, for the
    Shield contract's address; later tokens of the same name are never
    reached, and the result is the signature. *)
Theorem restriction_goes_to_the_first_token_of_that_name
        (env : AdminEnv) (shield : contract) (pre post : list token) (tok : token)
        (d w signingKey executorAddress : string) :
  waitFor env (SHIELD_CONTRACT_NAME env) = Some shield ->
  tokens env = pre ++ tok :: post ->
  Forall (fun other => name other <> name tok) pre ->
  let signed_call (m : method) :=
    ([ WaitForContract (SHIELD_CONTRACT_NAME env);
       AddMultiSigSignature (encodeABI env m) signingKey
                            (options_address shield) (Str executorAddress) ],
     match sign env (encodeABI env m) signingKey (options_address shield)
                (Str executorAddress) with
     | Some signed => Ok (Signed signed)
     | None => Err (Exception "signature failed")
     end) in
  setTokenRestrictions (name tok) d w signingKey executorAddress env
  = signed_call (setRestriction (address tok) d w)
  /\ removeTokenRestrictions (name tok) signingKey executorAddress env
     = signed_call (removeRestriction (address tok)).
Proof.
  intros Hshield Htokens Hpre. cbv zeta.
  unfold setTokenRestrictions, removeTokenRestrictions, abind, waitForContract.
  rewrite Hshield, Htokens.
  rewrite setTokenRestrictions_loop_skips, removeTokenRestrictions_loop_skips
    by exact Hpre.
  cbn [setTokenRestrictions_loop removeTokenRestrictions_loop].
  rewrite String.eqb_refl.
  unfold abind, methods_encodeABI, addMultiSigSignature, aret.
  split; destruct (sign env _ _ _ _); reflexivity.
Qed.

Lemma restriction_goes_to_the_first_token_of_that_name_witness :
  setTokenRestrictions "MATIC" "10" "20" "0xkey" "0xexec" MoreSamples.admin_env
  = ([ WaitForContract "Shield";
       AddMultiSigSignature "set:0xb2" "0xkey" "0x51" (Str "0xexec") ],
     Ok (Signed "signed:set:0xb2"))
  /\ removeTokenRestrictions "MATIC" "0xkey" "0xexec" MoreSamples.admin_env
     = ([ WaitForContract "Shield";
          AddMultiSigSignature "remove:0xb2" "0xkey" "0x51" (Str "0xexec") ],
        Ok (Signed "signed:remove:0xb2")).
Proof.
  apply (restriction_goes_to_the_first_token_of_that_name
           MoreSamples.admin_env {| options_address := "0x51" |}
           [MoreSamples.usdc] [MoreSamples.matic_again] MoreSamples.matic
           "10" "20" "0xkey" "0xexec").
  - reflexivity.
  - reflexivity.
  - repeat constructor. discriminate.
Defined.

Lemma pauseContracts_each_run (env : AdminEnv) (signingKey executorAddress pausable : string) :
  pauseContracts_each signingKey executorAddress pausable env =
  match waitFor env pausable with
  | None => ([WaitForContract pausable], Err (Exception "contract unavailable"))
  | Some c =>
      ([ WaitForContract pausable;
         AddMultiSigSignature (encodeABI env pause) signingKey
                              (options_address c) (Str executorAddress) ],
       match sign env (encodeABI env pause) signingKey (options_address c)
                  (Str executorAddress) with
       | Some signed => Ok signed
       | None => Err (Exception "signature failed")
       end)
  end.
Proof.
  unfold pauseContracts_each, abind, waitForContract, methods_encodeABI,
    addMultiSigSignature.
  destruct (waitFor env pausable); reflexivity.
Qed.

Lemma unpauseContracts_each_run (env : AdminEnv) (signingKey executorAddress pausable : string) :
  unpauseContracts_each signingKey executorAddress pausable env =
  match waitFor env pausable with
  | None => ([WaitForContract pausable], Err (Exception "contract unavailable"))
  | Some c =>
      ([ WaitForContract pausable;
         AddMultiSigSignature (encodeABI env unpause) signingKey
                              (options_address c) Undefined ],
       Ok executorAddress)
  end.
Proof.
  unfold unpauseContracts_each, abind, waitForContract, methods_encodeABI,
    addMultiSigSignature_dropped, aret.
  destruct (waitFor env pausable); reflexivity.
Qed.

(** X17.  With both pausable contracts reachable, [unpauseContracts]
    fulfils with the executor address once per contract, not with
    signatures, and every signature request it makes carries no executor
    address; [pauseContracts] fulfils with the two signatures, in the order
    State, Shield, exactly when both are produced. *)
Theorem unpauseContracts_returns_the_executor_address
        (env : AdminEnv) (state shield : contract)
        (signingKey executorAddress : string) :
  waitFor env "State" = Some state ->
  waitFor env "Shield" = Some shield ->
  unpauseContracts signingKey executorAddress env
  = [Ok [executorAddress; executorAddress]]
  /\ (forall pausable data key addr executor,
        In (AddMultiSigSignature data key addr executor)
           (fst (unpauseContracts_each signingKey executorAddress pausable env)) ->
        executor = Undefined)
  /\ (forall s1 s2,
        pauseContracts signingKey executorAddress env = [Ok [s1; s2]] <->
        sign env (encodeABI env pause) signingKey (options_address state)
             (Str executorAddress) = Some s1
        /\ sign env (encodeABI env pause) signingKey (options_address shield)
                (Str executorAddress) = Some s2).
Proof.
  intros Hstate Hshield. split; [| split].
  - unfold unpauseContracts, pausables. cbn [map].
    rewrite !unpauseContracts_each_run, Hstate, Hshield. reflexivity.
  - intros pausable data key addr executor.
    rewrite unpauseContracts_each_run.
    destruct (waitFor env pausable); cbn [fst In].
    + intros [H | [H | []]]; [discriminate H | now injection H].
    + intros [H | []]. discriminate H.
  - intros s1 s2. unfold pauseContracts, pausables. cbn [map].
    rewrite !pauseContracts_each_run, Hstate, Hshield.
    unfold Promise_all_values.
    destruct (sign env _ _ (options_address state) _) as [a |];
      destruct (sign env _ _ (options_address shield) _) as [b |];
      cbn [all_fulfilled rejections_at_once rejections_later map];
      split; try (intros H; discriminate H);
      try (intros [H1 H2]; discriminate).
    + intros H. injection H as <- <-. now split.
    + intros [H1 H2]. injection H1 as <-. injection H2 as <-. reflexivity.
Qed.

Lemma unpauseContracts_returns_the_executor_address_witness :
  unpauseContracts "0xkey" "0xexec" MoreSamples.admin_env
  = [Ok ["0xexec"; "0xexec"]].
Proof.
  refine (proj1 (unpauseContracts_returns_the_executor_address
                   MoreSamples.admin_env {| options_address := "0x52" |}
                   {| options_address := "0x51" |} "0xkey" "0xexec" _ _)).
  - reflexivity.
  - reflexivity.
Defined.

(** X18.  [transferShieldBalance] throws "Unknown token name" before it
    touches any contract when the token address resolves to ["unknown"];
    otherwise it awaits the Shield contract and asks for one signature over
    the transfer of that token address and amount. *)
Theorem transferShieldBalance_guards_the_token_name
        (env : AdminEnv) (tokenName amount signingKey executorAddress : string) :
  (getTokenAddress env tokenName = "unknown" ->
   transferShieldBalance tokenName amount signingKey executorAddress env
   = ([], Err (Exception "Unknown token name")))
  /\ (getTokenAddress env tokenName <> "unknown" ->
      forall shield, waitFor env (SHIELD_CONTRACT_NAME env) = Some shield ->
      transferShieldBalance tokenName amount signingKey executorAddress env
      = (let data := encodeABI env (transferShieldBalance_call
                                      (getTokenAddress env tokenName) amount) in
         ([ WaitForContract (SHIELD_CONTRACT_NAME env);
            AddMultiSigSignature data signingKey (options_address shield)
                                 (Str executorAddress) ],
          match sign env data signingKey (options_address shield)
                     (Str executorAddress) with
          | Some signed => Ok signed
          | None => Err (Exception "signature failed")
          end))).
Proof.
  unfold transferShieldBalance. split.
  - intros ->. reflexivity.
  - intros Hne shield Hshield. apply String.eqb_neq in Hne. rewrite Hne.
    unfold abind, waitForContract, methods_encodeABI, addMultiSigSignature.
    rewrite Hshield. reflexivity.
Qed.

